(** * Food counts from GNPS molecular networks: a model of [gfop/get_food_counts.py]

    The functions of the module are embedded as functions over tables
    (lists of rows), the ontology as a finite map keyed by reference
    filename, pandas Series as ordered association lists, and the two file
    reads as a state-passing computation over an explicit world.

    Conventions.  A Python exception is a [Raise] result.  The group
    columns hold integers; a missing text cell (NaN) is [None].  The pandas
    operations behave as pandas does on these tables: boolean indexing
    keeps the rows of the mask in order, [explode] of a split string yields
    its pieces, [reindex] followed by [dropna] keeps the labels that are found,
    [value_counts] sorts by descending count, [concat] of an empty list
    raises.  Definitions are named after the functions and local variables
    of the source, and cite its lines. *)

From Stdlib Require Import ZArith String Ascii List Lia Sorted.
From stdpp Require Import base option list strings sorting gmap.

Open Scope Z_scope.

(** ** Exceptions and fallible computations *)

Inductive exn : Type :=
  | KeyError
  | TypeError
  | ValueError
  | InvalidIndexError
  | FileNotFoundError.

Inductive result (A : Type) : Type :=
  | Ok (a : A)
  | Raise (e : exn).

Arguments Ok {A} a.
Arguments Raise {A} e.

Global Instance result_bind : MBind result := λ A B k m,
  match m with
  | Ok a => k a
  | Raise e => Raise e
  end.

(** [for x in l: ys.append(f x)], stopping at the first exception. *)
Fixpoint rmap {A B : Type} (f : A → result B) (l : list A) : result (list B) :=
  match l with
  | [] => Ok []
  | a :: l' => b ← f a; bs ← rmap f l'; Ok (b :: bs)
  end.

(** ** Python strings *)

(** [sub in s] on [str]. *)
Fixpoint str_contains (s sub : string) : bool :=
  String.prefix sub s ||
  match s with
  | EmptyString => false
  | String _ s' => str_contains s' sub
  end.

(** [s.split(sep)] for a one-character separator. *)
Fixpoint str_split (sep : ascii) (s : string) : list string :=
  match s with
  | EmptyString => [EmptyString]
  | String c s' =>
      if Ascii.eqb c sep then EmptyString :: str_split sep s'
      else match str_split sep s' with
           | [] => [String c EmptyString]
           | h :: t => String c h :: t
           end
  end.

(** Iterating over a [str] yields its one-character strings. *)
Fixpoint str_iter (s : string) : list string :=
  match s with
  | EmptyString => []
  | String c s' => String c EmptyString :: str_iter s'
  end.

(** The [filename] argument of [get_file_food_counts] is annotated [str]
    but only ever iterated; Python accepts a [str] or a list of [str]. *)
Inductive pyarg : Type :=
  | PyStr (s : string)
  | PyList (l : list string).

Definition py_iter (a : pyarg) : list string :=
  match a with
  | PyStr s => str_iter s
  | PyList l => l
  end.

(** [range(n)] *)
Definition py_range (n : Z) : list Z := seqZ 0 n.

(** ** Tables *)

(** One row of the clustering result: the six numeric group columns and the
    two annotation columns the module reads.  Other columns of the table
    are not modelled. *)
Record ClusterRow : Type := {
  G1 : Z; G2 : Z; G3 : Z; G4 : Z; G5 : Z; G6 : Z;
  DefaultGroups : string;
  UniqueFileSources : string
}.

(** One row of the Global FoodOmics metadata, keyed elsewhere by its
    [filename]; an empty cell (NaN) is [None]. *)
Record FoodRecord : Type := {
  sample_name : option string;
  sample_type_group1 : option string;
  sample_type_group2 : option string;
  sample_type_group3 : option string;
  sample_type_group4 : option string;
  sample_type_group5 : option string;
  sample_type_group6 : option string;
  simple_complex : option string
}.

(** The columns of the table: six of numbers, two of text. *)
Definition text_columns : list string := ["DefaultGroups"; "UniqueFileSources"].

Definition table_columns : list string :=
  ["G1"; "G2"; "G3"; "G4"; "G5"; "G6"] ++ text_columns.

(** The values of a column as numbers, to compare them with 0: a group
    column gives its values, the text of a text column cannot be compared
    with a number ([TypeError]), and a name that is no column of the table
    is a [KeyError]. *)
Definition group_column (name : string) : result (ClusterRow → Z) :=
  if decide (name = "G1") then Ok G1
  else if decide (name = "G2") then Ok G2
  else if decide (name = "G3") then Ok G3
  else if decide (name = "G4") then Ok G4
  else if decide (name = "G5") then Ok G5
  else if decide (name = "G6") then Ok G6
  else if decide (name ∈ text_columns) then Raise TypeError
  else Raise KeyError.

(** [gnps_network[names]] compared with 0.  The selection of the columns
    comes first and raises a [KeyError] when one of the names is no column;
    the comparison then raises a [TypeError] on a text column, unless the
    table has no row, when there is nothing to compare. *)
Definition group_columns (gnps_network : list ClusterRow) (names : list string)
  : result (list (ClusterRow → Z)) :=
  if decide (Forall (λ name, name ∈ table_columns) names) then
    match gnps_network with
    | [] => Ok []
    | _ => rmap group_column names
    end
  else Raise KeyError.

(** A pandas Series of counts: labels with their counts, in index order. *)
Abbreviation Series := (list (string * Z)).

(** A wide frame of integers: row labels, column labels, row-major cells. *)
Record DataFrame : Type := {
  df_index : list string;
  df_columns : list string;
  df_values : list (list Z)
}.

(** One row of the long-format table. *)
Record LongRow : Type := {
  lr_filename : string;
  lr_food_type : string;
  lr_count : Z;
  lr_level : Z;
  lr_group : option string
}.

(** ** pandas operations *)

(** [drop_duplicates()]: the first occurrence of every value is kept. *)
Fixpoint drop_duplicates {A : Type} `{EqDecision A} (l : list A) : list A :=
  match l with
  | [] => []
  | x :: l' => x :: filter (λ y, y ≠ x) (drop_duplicates l')
  end.

(** [(s == x).sum()] *)
Definition count_eq (x : string) (l : list string) : Z :=
  Z.of_nat (length (filter (λ y, y = x) l)).

(** [sort_values(ascending=False)]: a stable sort into descending order of
    counts, so that equal counts stay in their original order. *)
Fixpoint insert_desc (p : string * Z) (s : Series) : Series :=
  match s with
  | [] => [p]
  | q :: s' => if decide (q.2 ≤ p.2) then p :: q :: s' else q :: insert_desc p s'
  end.

Definition sort_values_desc (s : Series) : Series := foldr insert_desc [] s.

(** [value_counts()]: one entry per distinct value with its number of
    occurrences, most frequent first. *)
Definition value_counts (l : list string) : Series :=
  sort_values_desc ((λ x, (x, count_eq x l)) <$> drop_duplicates l).

(** [s.get(label)] on a Series of counts. *)
Fixpoint series_get (label : string) (s : Series) : option Z :=
  match s with
  | [] => None
  | (l, c) :: s' => if decide (l = label) then Some c else series_get label s'
  end.

(** [pd.concat(series, axis=1, sort=True)] followed by [.T]: one row per
    Series, one column per label of the sorted union of the indexes; a
    label a Series lacks is NaN ([None]).  An empty list of Series is a
    [ValueError]. *)
Definition concat_axis1_T (series : list Series) : result (list string * list (list (option Z))) :=
  match series with
  | [] => Raise ValueError
  | _ =>
      let labels := merge_sort String.le (drop_duplicates (series ≫= λ s : Series, fst <$> s)) in
      Ok (labels, (λ s, (λ c, series_get c s) <$> labels) <$> series)
  end.

(** [.fillna(0).astype(int)] *)
Definition fillna_int (cells : list (list (option Z))) : list (list Z) :=
  (λ row : list (option Z), default 0 <$> row) <$> cells.

(** [melt] stacks the value columns one after the other: every row of the
    first column, then every row of the second, and so on. *)
Definition melt (df : DataFrame) : list (string * string * Z) :=
  mjoin (imap (λ j c, (λ fr : string * list Z, (fr.1, c, nth j fr.2 0)) <$>
                        zip (df_index df) (df_values df))
              (df_columns df)).

(** [df.reset_index().melt(id_vars='filename', ..., value_name='count')]:
    [reset_index] cannot insert a [filename] column next to a value column
    of that name, and [melt] refuses a value name that is a column already;
    both are a [ValueError]. *)
Definition reset_index_melt (df : DataFrame) : result (list (string * string * Z)) :=
  if decide ("filename" ∈ df_columns df) then Raise ValueError
  else if decide ("count" ∈ df_columns df) then Raise ValueError
  else Ok (melt df).

(** [pd.concat(frames, ignore_index=True)] *)
Definition concat_rows {A : Type} (frames : list (list A)) : result (list A) :=
  match frames with
  | [] => Raise ValueError
  | _ => Ok (mjoin frames)
  end.

(** ** The module's functions *)

(** The files the module reads: the clustering tables by path, and the
    packaged metadata table, both as parsed. *)
Record World : Type := {
  tsv_files : gmap string (list ClusterRow);
  foodomics_metadata : gmap string FoodRecord
}.

Definition IO (A : Type) : Type := World → result A * World.

Global Instance IO_ret : MRet IO := λ A a w, (Ok a, w).

Global Instance IO_bind : MBind IO := λ A B k m w,
  match m w with
  | (Ok a, w') => k a w'
  | (Raise e, w') => (Raise e, w')
  end.

Definition lift {A : Type} (r : result A) : IO A := λ w, (r, w).

Fixpoint io_map {A B : Type} (f : A → IO B) (l : list A) : IO (list B) :=
  match l with
  | [] => mret []
  | a :: l' => b ← f a; bs ← io_map f l'; mret (b :: bs)
  end.

(** [pd.read_csv(path, sep='\t')] *)
Definition read_csv (path : string) : IO (list ClusterRow) := λ w,
  (match tsv_files w !! path with
   | Some table => Ok table
   | None => Raise FileNotFoundError
   end, w).

Definition load_food_metadata : IO (gmap string FoodRecord) := λ w,
  (Ok (foodomics_metadata w), w).

(** Lines 29-33: the rows of the wanted kind, indexed by filename. *)
Definition filter_sample_types (simple_complex_arg : string)
    (gfop_metadata : gmap string FoodRecord) : gmap string FoodRecord :=
  if decide (simple_complex_arg ≠ "all")
  then filter (λ kv, simple_complex kv.2 = Some simple_complex_arg) gfop_metadata
  else gfop_metadata.

Definition get_sample_types (simple_complex_arg : string) : IO (gmap string FoodRecord) :=
  gfop_metadata ← load_food_metadata;
  mret (filter_sample_types simple_complex_arg gfop_metadata).

Definition get_sample_metadata (gnps_network : list ClusterRow) (all_groups : list string)
  : list (string * string) :=
  let df_filtered := filter (λ r, ¬ str_contains (DefaultGroups r) ",") gnps_network in
  let df_selected := filter (λ r, DefaultGroups r ∈ all_groups) df_filtered in
  let df_exploded_files :=
    df_selected ≫= λ r, (λ fn, (DefaultGroups r, fn)) <$> str_split "|" (UniqueFileSources r) in
  drop_duplicates df_exploded_files.

Definition groups : gset string := list_to_set ["G1"; "G2"; "G3"; "G4"; "G5"; "G6"].

Definition groups_excluded (all_groups some_groups : list string) : list string :=
  elements (groups ∖ list_to_set (all_groups ++ some_groups)).

(** Lines 84-87: the rows matching the group pattern. *)
Definition select_groups (gnps_network : list ClusterRow) (all_groups some_groups : list string)
  : result (list ClusterRow) :=
  cols_all ← group_columns gnps_network all_groups;
  cols_some ← group_columns gnps_network some_groups;
  cols_excluded ← group_columns gnps_network (groups_excluded all_groups some_groups);
  Ok (filter (λ r, Forall (λ c : ClusterRow → Z, 0 < c r) cols_all ∧
                   Exists (λ c : ClusterRow → Z, 0 < c r) cols_some ∧
                   Forall (λ c : ClusterRow → Z, c r = 0) cols_excluded)
             gnps_network).

(** Lines 88-90: the rows naming one of the target files. *)
Definition select_files (filename : pyarg) (df_selected : list ClusterRow) : list ClusterRow :=
  filter (λ r, Exists (λ fn, str_contains (UniqueFileSources r) fn) (py_iter filename))
         df_selected.

(** Lines 88-91 on the selection of lines 84-87.  On a selection without
    rows [apply] returns an empty Series that is no boolean mask: indexing
    by it selects no column, and reading [UniqueFileSources] on line 91
    raises a [KeyError].  On a selection with rows the mask keeps the rows
    naming a target file. *)
Definition select_target_files (filename : pyarg) (df_selected : list ClusterRow)
  : result (list ClusterRow) :=
  match df_selected with
  | [] => Raise KeyError
  | _ => Ok (select_files filename df_selected)
  end.

(** Lines 91-92 *)
Definition explode_files (df_selected : list ClusterRow) : list string :=
  df_selected ≫= λ r, str_split "|" (UniqueFileSources r).

(** Line 94 *)
Definition sample_type_column (level : Z) : result (FoodRecord → option string) :=
  if decide (0 < level) then
    match level with
    | 1 => Ok sample_type_group1
    | 2 => Ok sample_type_group2
    | 3 => Ok sample_type_group3
    | 4 => Ok sample_type_group4
    | 5 => Ok sample_type_group5
    | 6 => Ok sample_type_group6
    | _ => Raise KeyError
    end
  else Ok sample_name.

(** Lines 96-97: [reindex] then [dropna]. *)
Definition reindex_dropna (labels : gmap string (option string)) (filenames : list string)
  : list string :=
  omap (λ fn, mjoin (labels !! fn)) filenames.

(** Lines 99-102 *)
Definition water_count (level : Z) (sample_types_selected : list string) : Z :=
  if decide (0 < level) then count_eq "water" sample_types_selected else 0.

(** Lines 103-108 *)
Definition filter_counts (floor : Z) (sample_types_selected : list string) : Series :=
  let sample_counts := value_counts sample_types_selected in
  let sample_counts_valid := fst <$> filter (λ p : string * Z, floor < p.2) sample_counts in
  value_counts (filter (λ l, l ∈ sample_counts_valid) sample_types_selected).

Definition get_file_food_counts (gnps_network : list ClusterRow)
    (sample_types : gmap string FoodRecord) (all_groups some_groups : list string)
    (filename : pyarg) (level : Z) : result Series :=
  df_selected ← select_groups gnps_network all_groups some_groups;
  df_selected ← select_target_files filename df_selected;
  let filenames := explode_files df_selected in
  column ← sample_type_column level;
  let sample_types_selected := reindex_dropna (column <$> sample_types) filenames in
  Ok (filter_counts (water_count level sample_types_selected) sample_types_selected).

(** Lines 142-146: the loop over the study files; the two lists it appends
    to in step are kept as one list of pairs. *)
Fixpoint file_loop (gnps_network : list ClusterRow) (sample_types : gmap string FoodRecord)
    (all_groups some_groups : list string) (level : Z) (filenames : list string)
  : result (list (string * Series)) :=
  match filenames with
  | [] => Ok []
  | filename :: rest =>
      file_food_counts ← get_file_food_counts gnps_network sample_types all_groups
                            some_groups (PyList [filename]) level;
      kept ← file_loop gnps_network sample_types all_groups some_groups level rest;
      Ok (if decide (0 < length file_food_counts)%nat
          then (filename, file_food_counts) :: kept
          else kept)
  end.

(** Lines 141-149, on the tables already read. *)
Definition dataset_food_counts (gnps_network : list ClusterRow)
    (sample_types : gmap string FoodRecord) (all_groups some_groups : list string)
    (level : Z) : result DataFrame :=
  let metadata := get_sample_metadata gnps_network all_groups in
  kept ← file_loop gnps_network sample_types all_groups some_groups level
                   (snd <$> metadata);
  food_counts ← concat_axis1_T (snd <$> kept);
  Ok {| df_index := fst <$> kept;
        df_columns := food_counts.1;
        df_values := fillna_int food_counts.2 |}.

Definition get_dataset_food_counts (gnps_network sample_types : string)
    (all_groups some_groups : list string) (level : Z) : IO DataFrame :=
  gnps_network ← read_csv gnps_network;
  sample_types ← get_sample_types sample_types;
  lift (dataset_food_counts gnps_network sample_types all_groups some_groups level).

(** A row of the long table: filename, food type, count and level, and the
    group the metadata gives for the filename (NaN when it gives none). *)
Definition long_row (metadata : list (string * string)) (r : string * string * Z * Z)
  : LongRow :=
  {| lr_filename := r.1.1.1;
     lr_food_type := r.1.1.2;
     lr_count := r.1.2;
     lr_level := r.2;
     lr_group := fst <$> head (filter (λ m : string * string, m.2 = r.1.1.1) metadata) |}.

(** Line 182: [Series.map] with a Series as the mapping needs a unique
    index on it. *)
Definition map_group (metadata : list (string * string))
    (rows : list (string * string * Z * Z)) : result (list LongRow) :=
  if decide (NoDup (snd <$> metadata)) then Ok (long_row metadata <$> rows)
  else Raise InvalidIndexError.

Definition get_dataset_food_counts_all (gnps_network sample_types : string)
    (all_groups some_groups : list string) (levels : Z) : IO (list LongRow) :=
  gnps_network_df ← read_csv gnps_network;
  let metadata := get_sample_metadata gnps_network_df all_groups in
  all_data ← io_map (λ level,
      food_counts ← get_dataset_food_counts gnps_network sample_types all_groups
                       some_groups level;
      food_counts_long ← lift (reset_index_melt food_counts);
      mret ((λ r, (r, level)) <$> food_counts_long))
    (py_range (levels + 1));
  result_df ← lift (concat_rows all_data);
  lift (map_group metadata result_df).

(** ** Notions used in the statements *)

(** [sep.join(pieces)] *)
Fixpoint str_join (sep : ascii) (pieces : list string) : string :=
  match pieces with
  | [] => ""
  | [p] => p
  | p :: rest => p +:+ String sep (str_join sep rest)
  end.

(** The body of the loop over the levels (lines 176-179), on the tables
    already read. *)
Definition level_frame (gnps_network : list ClusterRow)
    (sample_types : gmap string FoodRecord) (all_groups some_groups : list string)
    (level : Z) : result (list (string * string * Z * Z)) :=
  food_counts ← dataset_food_counts gnps_network sample_types all_groups some_groups level;
  food_counts_long ← reset_index_melt food_counts;
  Ok (fmap (M:=list) (λ r : string * string * Z, (r, level)) food_counts_long).

(** A row of the long table without its group. *)
Definition lr_cells (r : LongRow) : string * string * Z * Z :=
  (lr_filename r, lr_food_type r, lr_count r, lr_level r).

(** A count vector with at least one nonzero entry. *)
Definition has_nonzero (counts : Series) : Prop := Exists (λ e, e.2 ≠ 0) counts.

Global Instance has_nonzero_dec counts : Decision (has_nonzero counts).
Proof. unfold has_nonzero. apply _. Defined.

(** Cell of a frame by position. *)
Definition df_cell (df : DataFrame) (i j : nat) : option Z :=
  df_values df !! i ≫= λ row, row !! j.

(** A run of equal neighbours is squeezed to one element. *)
Fixpoint squeeze {A : Type} `{EqDecision A} (l : list A) : list A :=
  match l with
  | [] => []
  | x :: l' =>
      match l' with
      | [] => [x]
      | y :: _ => if decide (x = y) then squeeze l' else x :: squeeze l'
      end
  end.

(** Orders of a long table, stated after the specification: file-major
    when, within a level, the rows of one file are next to each other;
    label-major when the rows of one food type are. *)
Definition file_major (rows : list LongRow) : Prop :=
  NoDup (squeeze ((λ r, (lr_level r, lr_filename r)) <$> rows)).

Definition label_major (rows : list LongRow) : Prop :=
  NoDup (squeeze ((λ r, (lr_level r, lr_food_type r)) <$> rows)).

(** The reshape of the round trip, stated after the specification (the
    module has no such function): the rows of one level, grouped by
    filename and food type, with the count pivoted into a wide frame.  Rows
    and columns come in order of first appearance; a missing combination
    makes the reshape fail. *)
Definition long_at_level (rows : list LongRow) (level : Z) : list LongRow :=
  filter (λ r, lr_level r = level) rows.

Definition pivot_lookup (rows : list LongRow) (f c : string) : option Z :=
  lr_count <$> head (filter (λ r, lr_filename r = f ∧ lr_food_type r = c) rows).

Definition pivot_counts (rows : list LongRow) : option DataFrame :=
  let index := drop_duplicates (lr_filename <$> rows) in
  let columns := drop_duplicates (lr_food_type <$> rows) in
  values ← mapM (λ f, mapM (λ c, pivot_lookup rows f c) columns) index;
  Some {| df_index := index; df_columns := columns; df_values := values |}.

(** ** Notions used in the proofs *)

(** Blocks of rows, the rows of one block sharing the key of the block. *)
Definition keyed_blocks {A K : Type} (key : A → K) (keys : list K)
    (blocks : list (list A)) : Prop :=
  Forall2 (λ k blk, Forall (λ r, key r = k) blk) keys blocks.

(** Runs: every key repeated a given number of times. *)
Definition runs {K : Type} (xns : list (K * nat)) : list K :=
  xns ≫= λ xn, replicate xn.2 xn.1.

(** The rows of one level, column by column. *)
Definition pivot_rows {V : Type} (R : string * V → string → LongRow)
    (kept : list (string * V)) (labels : list string) : list LongRow :=
  mjoin ((λ c, (λ fv, R fv c) <$> kept) <$> labels).

(** ** The scenario of the specification *)

(** One cluster row with G1 = 5 and every other group 0, annotated "G1",
    to which three reference files contribute. *)
Definition scenario_row : ClusterRow :=
  {| G1 := 5; G2 := 0; G3 := 0; G4 := 0; G5 := 0; G6 := 0;
     DefaultGroups := "G1";
     UniqueFileSources := "ref1.mzXML|ref2.mzXML|water1.mzXML" |}.

(** A metadata row with a sample name and a label at level 3 only. *)
Definition food_at_level3 (name label : string) : FoodRecord :=
  {| sample_name := Some name;
     sample_type_group1 := None; sample_type_group2 := None;
     sample_type_group3 := Some label;
     sample_type_group4 := None; sample_type_group5 := None;
     sample_type_group6 := None;
     simple_complex := Some "simple" |}.

Definition scenario_types : gmap string FoodRecord :=
  <["ref1.mzXML" := food_at_level3 "apple" "fruit"]>
  (<["ref2.mzXML" := food_at_level3 "pear" "fruit"]>
  (<["water1.mzXML" := food_at_level3 "blank" "water"]> ∅)).

(** ** A small study: two study files, two reference files *)

Definition cluster (g1 g4 : Z) (default_groups sources : string) : ClusterRow :=
  {| G1 := g1; G2 := 0; G3 := 0; G4 := g4; G5 := 0; G6 := 0;
     DefaultGroups := default_groups;
     UniqueFileSources := sources |}.

(** A simple food carrying the same label at every level. *)
Definition simple_food (name label : string) : FoodRecord :=
  {| sample_name := Some name;
     sample_type_group1 := Some label; sample_type_group2 := Some label;
     sample_type_group3 := Some label; sample_type_group4 := Some label;
     sample_type_group5 := Some label; sample_type_group6 := Some label;
     simple_complex := Some "simple" |}.

(** A cluster of study spectra only, and two clusters each shared by a
    study file and a reference file. *)
Definition study_network : list ClusterRow :=
  [ cluster 1 0 "G1" "s1.mzXML|s2.mzXML";
    cluster 2 1 "G1,G4" "s1.mzXML|ref1.mzXML";
    cluster 1 1 "G1,G4" "s2.mzXML|ref2.mzXML" ].

Definition study_world : World :=
  {| tsv_files := {[ "network.tsv" := study_network ]};
     foodomics_metadata :=
       <["ref1.mzXML" := simple_food "apple" "fruit"]>
       (<["ref2.mzXML" := simple_food "kale" "vegetable"]> ∅) |}.

(** The long table of the study for the levels 0 and 1. *)
Definition study_long : list LongRow :=
  let row f c n lv :=
    {| lr_filename := f; lr_food_type := c; lr_count := n; lr_level := lv;
       lr_group := Some "G1" |} in
  [ row "s1.mzXML" "apple" 1 0; row "s2.mzXML" "apple" 0 0;
    row "s1.mzXML" "kale" 0 0; row "s2.mzXML" "kale" 1 0;
    row "s1.mzXML" "fruit" 1 1; row "s2.mzXML" "fruit" 0 1;
    row "s1.mzXML" "vegetable" 0 1; row "s2.mzXML" "vegetable" 1 1 ].

(** * Properties *)

(** ** Strings *)

Lemma string_app_cons (c : ascii) (a q : string) :
  String c a +:+ q = String c (a +:+ q).
Proof. reflexivity. Qed.

Lemma string_app_nil (q : string) : "" +:+ q = q.
Proof. reflexivity. Qed.

Lemma prefix_app (a s : string) :
  String.prefix a s = true ↔ ∃ q, s = a +:+ q.
Proof.
  revert s. induction a as [|c a IH]; intros s; simpl.
  - destruct s; split; eauto.
  - setoid_rewrite string_app_cons. destruct s as [|d s]; simpl.
    + split; [done | intros [q Hq]; done].
    + destruct (ascii_dec c d) as [->|Hne].
      * rewrite IH. split; intros [q Hq]; exists q; congruence.
      * split; [done | intros [q Hq]; congruence].
Qed.

(** [str_contains] is Python's substring test. *)
Lemma str_contains_spec (s a : string) :
  str_contains s a ↔ ∃ p q, s = p +:+ a +:+ q.
Proof.
  induction s as [|c s IH].
  - change (str_contains "" a) with (String.prefix a "" || false).
    rewrite orb_false_r, Is_true_true, prefix_app. split.
    + intros [q Hq]. by exists "", q.
    + intros (p & q & Hpq). destruct p; [by exists q | done].
  - change (str_contains (String c s) a)
      with (String.prefix a (String c s) || str_contains s a).
    rewrite orb_True, Is_true_true, prefix_app, IH. split.
    + intros [[q Hq] | (p & q & Hpq)].
      * by exists "", q.
      * exists (String c p), q. rewrite string_app_cons. by rewrite Hpq.
    + intros (p & q & Hpq). destruct p as [|d p].
      * left. by exists q.
      * right. exists p, q. rewrite string_app_cons in Hpq. congruence.
Qed.

(** A one-character string occurs in [s] exactly when the character does. *)
Lemma str_contains_char (s : string) (c : ascii) :
  str_contains s (String c "") ↔ c ∈ list_ascii_of_string s.
Proof.
  rewrite str_contains_spec. induction s as [|d s IH]; simpl.
  - rewrite elem_of_nil. split; [|done].
    intros (p & q & Hpq). by destruct p.
  - rewrite elem_of_cons, <- IH. split.
    + intros (p & q & Hpq). destruct p as [|e p].
      * left. rewrite string_app_nil, string_app_cons in Hpq. congruence.
      * right. exists p, q. rewrite string_app_cons in Hpq. congruence.
    + intros [-> | (p & q & ->)].
      * by exists "", s.
      * by exists (String d p), q.
Qed.

Lemma elem_of_str_iter (s x : string) :
  x ∈ str_iter s ↔ ∃ c, x = String c "" ∧ c ∈ list_ascii_of_string s.
Proof.
  induction s as [|d s IH]; simpl.
  - rewrite elem_of_nil. split; [done | intros (c & _ & H); by apply elem_of_nil in H].
  - rewrite elem_of_cons, IH. setoid_rewrite elem_of_cons. naive_solver.
Qed.

(** ** [drop_duplicates] and [value_counts] *)

Lemma filter_Forall_id {A : Type} (P : A → Prop) `{∀ x, Decision (P x)} (l : list A) :
  Forall P l → filter P l = l.
Proof.
  induction 1 as [|x l Hx Hl IH]; [done|].
  by rewrite filter_cons_True, IH.
Qed.

Section drop_duplicates.
Context {A : Type} `{EqDecision A}.
Implicit Types l : list A.

Lemma elem_of_drop_duplicates l x : x ∈ drop_duplicates l ↔ x ∈ l.
Proof.
  induction l as [|y l IH]; simpl; [done|].
  rewrite !elem_of_cons, list_elem_of_filter, IH.
  destruct (decide (x = y)); naive_solver.
Qed.

Lemma NoDup_drop_duplicates l : NoDup (drop_duplicates l).
Proof.
  induction l as [|y l IH]; simpl; [constructor|].
  constructor; [|by apply NoDup_filter].
  rewrite list_elem_of_filter. naive_solver.
Qed.

Lemma drop_duplicates_NoDup l : NoDup l → drop_duplicates l = l.
Proof.
  induction 1 as [|y l Hy Hl IH]; simpl; [done|].
  rewrite IH. f_equal. apply filter_Forall_id, Forall_forall.
  intros z Hz ->. done.
Qed.
End drop_duplicates.

Lemma count_eq_pos (x : string) (l : list string) : 0 < count_eq x l ↔ x ∈ l.
Proof.
  unfold count_eq. split.
  - intros Hpos. destruct (filter (λ y, y = x) l) as [|y k] eqn:Hf; [simpl in Hpos; lia|].
    assert (y ∈ filter (λ y, y = x) l) as Hy by (rewrite Hf; left).
    apply list_elem_of_filter in Hy as [-> ?]. done.
  - intros Hx. assert (x ∈ filter (λ y, y = x) l) as Hin by by apply list_elem_of_filter.
    destruct (filter (λ y, y = x) l); [by apply elem_of_nil in Hin | simpl; lia].
Qed.

Lemma count_eq_filter (P : string → Prop) `{∀ x, Decision (P x)} (x : string) (l : list string) :
  P x → count_eq x (filter P l) = count_eq x l.
Proof.
  intros Hx. unfold count_eq. do 2 f_equal.
  rewrite list_filter_filter. apply list_filter_iff. naive_solver.
Qed.

Lemma insert_desc_Permutation (p : string * Z) (s : Series) : insert_desc p s ≡ₚ p :: s.
Proof.
  induction s as [|q s IH]; simpl; [done|].
  case_decide; [done|]. by rewrite IH, Permutation_swap.
Qed.

Lemma sort_values_desc_Permutation (s : Series) : sort_values_desc s ≡ₚ s.
Proof.
  induction s as [|p s IH]; simpl; [done|].
  by rewrite insert_desc_Permutation, IH.
Qed.



Lemma elem_of_value_counts (l : list string) (x : string) (c : Z) :
  (x, c) ∈ value_counts l ↔ x ∈ l ∧ c = count_eq x l.
Proof.
  unfold value_counts. rewrite sort_values_desc_Permutation, list_elem_of_fmap.
  setoid_rewrite elem_of_drop_duplicates. naive_solver.
Qed.

Lemma value_counts_labels (l : list string) : (value_counts l).*1 ≡ₚ drop_duplicates l.
Proof.
  unfold value_counts. rewrite sort_values_desc_Permutation, <- list_fmap_compose.
  by rewrite list_fmap_id.
Qed.

Lemma NoDup_value_counts (l : list string) : NoDup (value_counts l).*1.
Proof. rewrite value_counts_labels. apply NoDup_drop_duplicates. Qed.

Lemma value_counts_nil_iff (l : list string) : value_counts l = [] ↔ l = [].
Proof.
  split; [|by intros ->].
  intros Hnil. destruct l as [|x l]; [done|].
  assert ((x, count_eq x (x :: l)) ∈ value_counts (x :: l)) as Hin.
  { apply elem_of_value_counts. split; [left | done]. }
  rewrite Hnil in Hin. by apply elem_of_nil in Hin.
Qed.

(** On a Series with distinct labels, [series_get] finds exactly the
    entries. *)
Lemma series_get_Some (s : Series) (x : string) (c : Z) :
  NoDup s.*1 → series_get x s = Some c ↔ (x, c) ∈ s.
Proof.
  induction s as [|[y d] s IH]; simpl; intros Hnd.
  - rewrite elem_of_nil. done.
  - apply NoDup_cons in Hnd as [Hy Hnd]. rewrite elem_of_cons.
    destruct (decide (y = x)) as [->|Hne].
    + split; [intros [= ->]; by left|].
      intros [[= ->]|Hin]; [done|].
      destruct Hy. apply list_elem_of_fmap. by exists (x, c).
    + rewrite IH by done. split; [by right|]. intros [[= ? ?]|?]; done.
Qed.

Lemma series_get_None (s : Series) (x : string) :
  series_get x s = None ↔ x ∉ s.*1.
Proof.
  induction s as [|[y d] s IH]; simpl.
  - split; [intros _; apply not_elem_of_nil | done].
  - rewrite not_elem_of_cons. destruct (decide (y = x)); naive_solver.
Qed.

(** What lines 103-108 return: every label of the selection whose number
    of occurrences exceeds the floor, with that number. *)
Lemma elem_of_filter_counts (floor : Z) (l : list string) (x : string) (c : Z) :
  (x, c) ∈ filter_counts floor l ↔ x ∈ l ∧ c = count_eq x l ∧ floor < c.
Proof.
  unfold filter_counts.
  set (valid := (filter (λ p : string * Z, floor < p.2) (value_counts l)).*1).
  assert (∀ y, y ∈ valid ↔ y ∈ l ∧ floor < count_eq y l) as Hvalid.
  { intros y. unfold valid. rewrite list_elem_of_fmap. split.
    - intros ([y' d] & -> & Hin). apply list_elem_of_filter in Hin as [Hd Hin].
      apply elem_of_value_counts in Hin as [? ->]. done.
    - intros [Hy Hc]. exists (y, count_eq y l). split; [done|].
      apply list_elem_of_filter. split; [done|]. by apply elem_of_value_counts. }
  rewrite elem_of_value_counts, list_elem_of_filter, Hvalid. split.
  - intros [[[_ Hc] Hx] ->]. rewrite count_eq_filter by (by apply Hvalid). done.
  - intros (Hx & -> & Hc). rewrite count_eq_filter by (by apply Hvalid). done.
Qed.

(** ** The file-count engine *)

Lemma get_file_food_counts_inv net types all_groups some_groups filename level counts :
  get_file_food_counts net types all_groups some_groups filename level = Ok counts →
  ∃ df column,
    select_groups net all_groups some_groups = Ok df ∧
    sample_type_column level = Ok column ∧
    counts =
      let labelled :=
        reindex_dropna (column <$> types) (explode_files (select_files filename df)) in
      filter_counts (water_count level labelled) labelled.
Proof.
  unfold get_file_food_counts. intros Hget.
  destruct (select_groups net all_groups some_groups) as [df|] eqn:Hdf; [|done].
  destruct df as [|r df']; [done|].
  destruct (sample_type_column level) as [column|] eqn:Hcol; [|done].
  exists (r :: df'), column. simpl in Hget. by injection Hget as <-.
Qed.

(** C1: at a level above 0 every returned count is strictly above the noise
    floor, the number of labelled identifiers whose label is "water", so
    "water" is never a returned label; and in the scenario of the
    specification the result is exactly fruit: 2. *)
Theorem C1_counts_exceed_noise_floor :
  (∀ net types all_groups some_groups filename level counts,
     0 < level →
     get_file_food_counts net types all_groups some_groups filename level = Ok counts →
     ∃ df column,
       select_groups net all_groups some_groups = Ok df ∧
       sample_type_column level = Ok column ∧
       let labelled :=
         reindex_dropna (column <$> types) (explode_files (select_files filename df)) in
       (∀ label c, (label, c) ∈ counts → count_eq "water" labelled < c) ∧
       "water" ∉ counts.*1)
  ∧
  (∀ (types : gmap string FoodRecord) fns,
     sample_type_group3 <$> types !! "ref1.mzXML" = Some (Some "fruit") →
     sample_type_group3 <$> types !! "ref2.mzXML" = Some (Some "fruit") →
     sample_type_group3 <$> types !! "water1.mzXML" = Some (Some "water") →
     Exists (λ fn, str_contains (UniqueFileSources scenario_row) fn) fns →
     get_file_food_counts [scenario_row] types ["G1"] ["G1"] (PyList fns) 3
     = Ok [("fruit", 2)]).
Proof.
  split.
  - intros net types all_groups some_groups filename level counts Hlevel Hget.
    apply get_file_food_counts_inv in Hget as (df & column & Hdf & Hcol & ->).
    exists df, column. split_and!; [done..|]. simpl.
    unfold water_count. rewrite decide_True by done.
    set (labelled := reindex_dropna _ _).
    assert (∀ label c, (label, c) ∈ filter_counts (count_eq "water" labelled) labelled →
                       count_eq "water" labelled < c) as Hfloor.
    { intros label c Hin. by apply elem_of_filter_counts in Hin as (_ & _ & ?). }
    split; [done|]. intros Hwater.
    apply list_elem_of_fmap in Hwater as ([label c] & Hlabel & Hin).
    simpl in Hlabel. subst label.
    apply elem_of_filter_counts in Hin as (_ & -> & Hlt). lia.
  - intros types fns H1 H2 H3 Hfns. unfold get_file_food_counts.
    assert (select_groups [scenario_row] ["G1"] ["G1"] = Ok [scenario_row]) as ->
      by (by vm_compute).
    simpl. unfold select_files, py_iter. rewrite filter_cons_True by done.
    rewrite filter_nil. f_equal.
    assert (explode_files [scenario_row] = ["ref1.mzXML"; "ref2.mzXML"; "water1.mzXML"])
      as -> by (by vm_compute).
    unfold reindex_dropna. simpl. rewrite !lookup_fmap.
    rewrite H1, H2, H3. simpl. by vm_compute.
Qed.

Lemma C1_counts_exceed_noise_floor_witness :
  0 < 3 ∧
  get_file_food_counts [scenario_row] scenario_types ["G1"] ["G1"]
    (PyList ["ref1.mzXML"]) 3 = Ok [("fruit", 2)] ∧
  ∃ df column,
    select_groups [scenario_row] ["G1"] ["G1"] = Ok df ∧
    sample_type_column 3 = Ok column ∧
    let labelled :=
      reindex_dropna (column <$> scenario_types)
                     (explode_files (select_files (PyList ["ref1.mzXML"]) df)) in
    (∀ label c, (label, c) ∈ [("fruit", 2)] → count_eq "water" labelled < c) ∧
    "water" ∉ [("fruit", 2)].*1.
Proof.
  assert (0 < 3) as Hlevel by lia.
  assert (get_file_food_counts [scenario_row] scenario_types ["G1"] ["G1"]
            (PyList ["ref1.mzXML"]) 3 = Ok [("fruit", 2)]) as Hget.
  { apply (proj2 C1_counts_exceed_noise_floor scenario_types ["ref1.mzXML"]);
      [reflexivity | reflexivity | reflexivity |].
    apply Exists_cons_hd. vm_compute. exact I. }
  split; [exact Hlevel|]. split; [exact Hget|].
  exact (proj1 C1_counts_exceed_noise_floor _ _ _ _ _ _ _ Hlevel Hget).
Defined.

(** ** Selecting clusters by group pattern *)

Lemma rmap_Ok {A B : Type} (f : A → result B) (l : list A) (bs : list B) :
  rmap f l = Ok bs ↔ Forall2 (λ a b, f a = Ok b) l bs.
Proof.
  revert bs. induction l as [|a l IH]; intros bs; simpl.
  - split; [intros [= <-]; constructor | by inversion 1].
  - destruct (f a) as [b|e] eqn:Hfa; simpl.
    + destruct (rmap f l) as [bs'|e] eqn:Hl; simpl.
      * split.
        -- intros [= <-]. constructor; [done | by apply IH].
        -- inversion 1 as [|? b' ? bs'' Hb Hbs]; subst.
           apply IH in Hbs. congruence.
      * split; [done|]. inversion 1 as [|? b' ? bs'' Hb Hbs]; subst.
        by apply IH in Hbs.
    + split; [done|]. inversion 1; congruence.
Qed.

Lemma rmap_is_Ok {A B : Type} (f : A → result B) (l : list A) :
  (∀ a, a ∈ l → ∃ b, f a = Ok b) → ∃ bs, rmap f l = Ok bs.
Proof.
  induction l as [|a l IH]; intros Hl; simpl; [by eexists|].
  destruct (Hl a) as [b ->]; [left|].
  destruct IH as [bs ->]; [intros; apply Hl; by right|].
  by eexists.
Qed.

Lemma group_column_is_Ok (g : string) :
  g ∈ groups ↔ ∃ c, group_column g = Ok c.
Proof.
  unfold groups, group_column. rewrite elem_of_list_to_set.
  rewrite !elem_of_cons. rewrite elem_of_nil.
  repeat case_decide; naive_solver.
Qed.

Lemma elem_of_groups_excluded (all_groups some_groups : list string) (g : string) :
  g ∈ groups_excluded all_groups some_groups ↔
  g ∈ groups ∧ (g ∉ all_groups) ∧ (g ∉ some_groups).
Proof.
  unfold groups_excluded.
  rewrite elem_of_elements, elem_of_difference, elem_of_list_to_set, elem_of_app.
  naive_solver.
Qed.

Lemma groups_are_columns (g : string) : g ∈ groups → g ∈ table_columns.
Proof.
  unfold groups, table_columns. rewrite elem_of_list_to_set, elem_of_app. by left.
Qed.

Lemma group_columns_rows (r : ClusterRow) net (names : list string) cols :
  group_columns (r :: net) names = Ok cols → rmap group_column names = Ok cols.
Proof. unfold group_columns. by case_decide. Qed.

Lemma group_columns_is_Ok net (names : list string) :
  (∀ g, g ∈ names → g ∈ groups) → ∃ cols, group_columns net names = Ok cols.
Proof.
  intros Hnames. unfold group_columns. rewrite decide_True.
  - destruct net as [|r net]; [by eexists|].
    apply rmap_is_Ok. intros g Hg. by apply group_column_is_Ok, Hnames.
  - apply Forall_forall. intros g Hg. by apply groups_are_columns, Hnames.
Qed.

Lemma Forall_columns (P : Z → Prop) (names : list string) cols (r : ClusterRow) :
  rmap group_column names = Ok cols →
  Forall (λ c : ClusterRow → Z, P (c r)) cols ↔
  ∀ g, g ∈ names → ∃ c, group_column g = Ok c ∧ P (c r).
Proof.
  rewrite rmap_Ok. induction 1 as [|g c names cols Hg Hrest IH].
  - split; [intros _ g Hg; by apply elem_of_nil in Hg | intros _; constructor].
  - rewrite Forall_cons, IH. split.
    + intros [Hc Hall] g' [->|Hg']%elem_of_cons; [eauto | by apply Hall].
    + intros Hall. split.
      * destruct (Hall g) as (c' & Hc' & HP); [left|].
        assert (c' = c) as -> by congruence. done.
      * intros g' Hg'. apply Hall. by right.
Qed.

Lemma Exists_columns (P : Z → Prop) (names : list string) cols (r : ClusterRow) :
  rmap group_column names = Ok cols →
  Exists (λ c : ClusterRow → Z, P (c r)) cols ↔
  ∃ g c, g ∈ names ∧ group_column g = Ok c ∧ P (c r).
Proof.
  rewrite rmap_Ok. induction 1 as [|g c names cols Hg Hrest IH].
  - split; [by intros ?%Exists_nil | intros (g & c & ?%elem_of_nil & _); done].
  - rewrite Exists_cons, IH. split.
    + intros [Hc | (g' & c' & Hg' & Hc' & HP)].
      * exists g, c. split_and!; [left | done..].
      * exists g', c'. split_and!; [by right | done..].
    + intros (g' & c' & [->|Hg']%elem_of_cons & Hc' & HP).
      * left. assert (c' = c) as -> by congruence. done.
      * right. eauto.
Qed.

(** C2: the rows selected by group pattern are exactly the rows of the
    table in which every group of [all_groups] is positive, some group of
    [some_groups] is positive, and every one of the six groups outside both
    lists is zero; and the selection is defined whenever the two lists name
    groups among the six. *)
Theorem C2_group_selection net all_groups some_groups :
  (∀ df, select_groups net all_groups some_groups = Ok df →
     sublist df net ∧
     ∀ r, r ∈ df ↔
       r ∈ net ∧
       (∀ g, g ∈ all_groups → ∃ c, group_column g = Ok c ∧ 0 < c r) ∧
       (∃ g c, g ∈ some_groups ∧ group_column g = Ok c ∧ 0 < c r) ∧
       (∀ g, g ∈ groups → g ∉ all_groups → g ∉ some_groups →
             ∃ c, group_column g = Ok c ∧ c r = 0))
  ∧
  ((∀ g, g ∈ all_groups ++ some_groups → g ∈ groups) →
   ∃ df, select_groups net all_groups some_groups = Ok df).
Proof.
  split.
  - intros df. unfold select_groups.
    destruct (group_columns net all_groups) as [ca|] eqn:Hall; [|done].
    destruct (group_columns net some_groups) as [cs|] eqn:Hsome; [|done].
    destruct (group_columns net (groups_excluded all_groups some_groups)) as [ce|] eqn:Hex;
      [|done].
    simpl. intros [= <-]. split; [apply sublist_filter|].
    destruct net as [|r0 net'].
    { intros r. rewrite filter_nil, elem_of_nil. naive_solver. }
    apply group_columns_rows in Hall, Hsome, Hex.
    intros r. rewrite list_elem_of_filter.
    rewrite (Forall_columns (λ v, 0 < v) _ _ _ Hall).
    rewrite (Exists_columns (λ v, 0 < v) _ _ _ Hsome).
    rewrite (Forall_columns (λ v, v = 0) _ _ _ Hex).
    setoid_rewrite elem_of_groups_excluded. naive_solver.
  - intros Hnames. unfold select_groups.
    destruct (group_columns_is_Ok net all_groups) as [ca ->].
    { intros g Hg. apply Hnames, elem_of_app. by left. }
    destruct (group_columns_is_Ok net some_groups) as [cs ->].
    { intros g Hg. apply Hnames, elem_of_app. by right. }
    destruct (group_columns_is_Ok net (groups_excluded all_groups some_groups)) as [ce ->].
    { intros g Hg. by apply elem_of_groups_excluded in Hg as [? _]. }
    simpl. by eexists.
Qed.

Lemma C2_group_selection_witness :
  (∀ g, g ∈ ["G1"] ++ ["G1"] → g ∈ groups) ∧
  (∃ df, select_groups [scenario_row] ["G1"] ["G1"] = Ok df) ∧
  select_groups [scenario_row] ["G1"] ["G1"] = Ok [scenario_row] ∧
  sublist [scenario_row] [scenario_row] ∧
  (∀ g, g ∈ groups → g ∉ ["G1"] → g ∉ ["G1"] →
        ∃ c, group_column g = Ok c ∧ c scenario_row = 0).
Proof.
  assert (∀ g, g ∈ ["G1"] ++ ["G1"] → g ∈ groups) as Hnames.
  { intros g Hg. apply elem_of_list_to_set.
    apply elem_of_app in Hg as [Hg|Hg]; apply list_elem_of_singleton in Hg as ->; left. }
  assert (select_groups [scenario_row] ["G1"] ["G1"] = Ok [scenario_row]) as Hdf
    by reflexivity.
  destruct (C2_group_selection [scenario_row] ["G1"] ["G1"]) as [Hsel Hdef].
  destruct (Hsel _ Hdf) as [Hsub Hrows].
  split; [exact Hnames|]. split; [exact (Hdef Hnames)|]. split; [exact Hdf|].
  split; [exact Hsub|].
  apply (proj1 (Hrows scenario_row)). left.
Defined.

(** ** Resolving the study files *)

(** Joining the pieces of a split with the separator gives the string
    back, and no piece holds the separator. *)
Lemma str_split_nonempty (sep : ascii) (s : string) : str_split sep s ≠ [].
Proof.
  destruct s as [|c s]; simpl; [done|].
  destruct (Ascii.eqb c sep); [done|]. by destruct (str_split sep s).
Qed.

Lemma str_join_split (sep : ascii) (s : string) : str_join sep (str_split sep s) = s.
Proof.
  induction s as [|c s IH]; [done|]. simpl.
  pose proof (str_split_nonempty sep s) as Hne.
  destruct (Ascii.eqb_spec c sep) as [->|Hc].
  - destruct (str_split sep s) as [|p rest]; [done|].
    change (str_join sep ("" :: p :: rest)) with (String sep (str_join sep (p :: rest))).
    by rewrite IH.
  - destruct (str_split sep s) as [|p rest]; [done|].
    destruct rest as [|q rest]; simpl in *; [by rewrite IH|].
    rewrite string_app_cons. by rewrite IH.
Qed.

Lemma str_split_no_sep (sep : ascii) (s : string) :
  Forall (λ p, sep ∉ list_ascii_of_string p) (str_split sep s).
Proof.
  induction s as [|c s IH]; simpl.
  - constructor; [apply not_elem_of_nil | constructor].
  - destruct (Ascii.eqb_spec c sep) as [->|Hc].
    + constructor; [apply not_elem_of_nil | done].
    + destruct (str_split sep s) as [|p rest]; simpl.
      * constructor; [|constructor]. simpl. rewrite elem_of_cons, elem_of_nil. naive_solver.
      * apply Forall_cons in IH as [Hp Hrest]. constructor; [|done].
        simpl. rewrite elem_of_cons. naive_solver.
Qed.

Lemma elem_of_get_sample_metadata net all_groups (g f : string) :
  (g, f) ∈ get_sample_metadata net all_groups ↔
  ∃ r, r ∈ net ∧ ¬ str_contains (DefaultGroups r) "," ∧ DefaultGroups r = g ∧
       g ∈ all_groups ∧ f ∈ str_split "|" (UniqueFileSources r).
Proof.
  unfold get_sample_metadata.
  rewrite elem_of_drop_duplicates, list_elem_of_bind. split.
  - intros (r & Hpair & Hr). apply list_elem_of_fmap in Hpair as (f' & [= -> ->] & Hf).
    apply list_elem_of_filter in Hr as [Hall Hr].
    apply list_elem_of_filter in Hr as [Hcomma Hr]. eauto 10.
  - intros (r & Hr & Hcomma & <- & Hall & Hf). exists r. split.
    + apply list_elem_of_fmap. eauto.
    + by rewrite !list_elem_of_filter.
Qed.



(** ** Level 0 *)

Lemma elem_of_reindex_dropna (labels : gmap string (option string)) ids (x : string) :
  x ∈ reindex_dropna labels ids ↔ ∃ id, id ∈ ids ∧ labels !! id = Some (Some x).
Proof.
  unfold reindex_dropna. rewrite list_elem_of_omap. split.
  - intros (id & Hid & Hx). exists id. split; [done|].
    destruct (labels !! id) as [[y|]|]; simplify_eq/=; done.
  - intros (id & Hid & Hx). exists id. by rewrite Hx.
Qed.

(** With a floor of 0 nothing is dropped. *)
Lemma filter_counts_0 (l : list string) : filter_counts 0 l = value_counts l.
Proof.
  unfold filter_counts. f_equal. apply filter_Forall_id, Forall_forall.
  intros x Hx. apply list_elem_of_fmap. exists (x, count_eq x l). split; [done|].
  apply list_elem_of_filter. split; [by apply count_eq_pos|].
  by apply elem_of_value_counts.
Qed.

(** C3, as the code has it: at level 0 the floor is 0 and nothing is
    dropped; the returned labels are the sample names of the exploded
    identifiers that the ontology table holds with a sample name, each with
    the number of identifiers carrying that name. *)
Theorem C3_level0_counts_sample_names net types all_groups some_groups filename counts :
  get_file_food_counts net types all_groups some_groups filename 0 = Ok counts →
  ∃ df,
    select_groups net all_groups some_groups = Ok df ∧
    let ids := explode_files (select_files filename df) in
    let names := reindex_dropna (sample_name <$> types) ids in
    water_count 0 names = 0 ∧
    counts = value_counts names ∧
    (∀ id rec name,
       id ∈ ids → types !! id = Some rec → sample_name rec = Some name →
       ∃ c, (name, c) ∈ counts ∧ 0 < c) ∧
    (∀ name c,
       (name, c) ∈ counts →
       c = count_eq name names ∧
       ∃ id rec, id ∈ ids ∧ types !! id = Some rec ∧ sample_name rec = Some name).
Proof.
  intros Hget.
  apply get_file_food_counts_inv in Hget as (df & column & Hdf & Hcol & ->).
  assert (column = sample_name) as -> by (by injection Hcol).
  exists df. split; [done|]. simpl.
  set (ids := explode_files _). set (names := reindex_dropna _ _).
  assert (water_count 0 names = 0) as -> by done.
  rewrite filter_counts_0. split_and!; [done..| |].
  - intros id rec name Hid Hrec Hname.
    assert (name ∈ names) as Hin.
    { apply elem_of_reindex_dropna. exists id. split; [done|].
      by rewrite lookup_fmap, Hrec, <- Hname. }
    exists (count_eq name names). split; [by apply elem_of_value_counts|].
    by apply count_eq_pos.
  - intros name c [Hin ->]%elem_of_value_counts. split; [done|].
    apply elem_of_reindex_dropna in Hin as (id & Hid & Hlookup).
    rewrite lookup_fmap in Hlookup.
    destruct (types !! id) as [rec|] eqn:Hrec; simplify_eq/=. eauto.
Qed.

Lemma C3_level0_counts_sample_names_witness :
  ∃ df,
    select_groups [scenario_row] ["G1"] ["G1"] = Ok df ∧
    let ids := explode_files (select_files (PyList ["ref1.mzXML"]) df) in
    let names := reindex_dropna (sample_name <$> scenario_types) ids in
    water_count 0 names = 0 ∧
    [("apple", 1); ("pear", 1); ("blank", 1)] = value_counts names ∧
    (∀ id rec name,
       id ∈ ids → scenario_types !! id = Some rec → sample_name rec = Some name →
       ∃ c, (name, c) ∈ [("apple", 1); ("pear", 1); ("blank", 1)] ∧ 0 < c) ∧
    (∀ name c,
       (name, c) ∈ [("apple", 1); ("pear", 1); ("blank", 1)] →
       c = count_eq name names ∧
       ∃ id rec, id ∈ ids ∧ scenario_types !! id = Some rec ∧ sample_name rec = Some name).
Proof.
  apply (C3_level0_counts_sample_names [scenario_row] scenario_types ["G1"] ["G1"]
           (PyList ["ref1.mzXML"])).
  reflexivity.
Defined.

(** C3 as the specification words it fails on the code: at level 0 the
    identifier [ref1.mzXML] is exploded and present in the ontology table,
    yet the label counted for it is its sample name, [apple], and the
    identifier is no label of the result. *)
Lemma C3_identifier_is_not_its_label :
  ∃ df counts,
    select_groups [scenario_row] ["G1"] ["G1"] = Ok df ∧
    get_file_food_counts [scenario_row] scenario_types ["G1"] ["G1"]
      (PyList ["ref1.mzXML"]) 0 = Ok counts ∧
    "ref1.mzXML" ∈ explode_files (select_files (PyList ["ref1.mzXML"]) df) ∧
    is_Some (scenario_types !! "ref1.mzXML") ∧
    ("ref1.mzXML" ∉ counts.*1) ∧
    ("apple", 1) ∈ counts.
Proof.
  exists [scenario_row], [("apple", 1); ("pear", 1); ("blank", 1)].
  split_and!; [reflexivity | reflexivity | | | |].
  - vm_compute. left.
  - by eexists.
  - simpl. rewrite !not_elem_of_cons. split_and!; [done..|]. apply not_elem_of_nil.
  - left.
Qed.

(** ** The target-file restriction *)

(** C10: the restriction keeps a row when some element obtained by
    iterating over the [filename] argument occurs in the row's
    UniqueFileSources.  For a list these elements are the filenames, and a
    singleton list keeps the rows that hold its filename; for a plain string
    they are its characters, so any row sharing one character with the
    string is kept, and the two readings differ on the scenario of the
    specification.  The loop of the dataset function passes a singleton
    list. *)
Theorem C10_filename_is_iterated :
  (∀ filename df r,
     r ∈ select_files filename df ↔
     r ∈ df ∧ ∃ fn, fn ∈ py_iter filename ∧
                ∃ p q, UniqueFileSources r = p +:+ fn +:+ q) ∧
  (∀ fns, py_iter (PyList fns) = fns) ∧
  (∀ f df r,
     r ∈ select_files (PyList [f]) df ↔
     r ∈ df ∧ ∃ p q, UniqueFileSources r = p +:+ f +:+ q) ∧
  (∀ s df r,
     r ∈ select_files (PyStr s) df ↔
     r ∈ df ∧ ∃ c, c ∈ list_ascii_of_string s ∧
                c ∈ list_ascii_of_string (UniqueFileSources r)) ∧
  (get_file_food_counts [scenario_row] scenario_types ["G1"] ["G1"]
     (PyStr "study.mzXML") 3 = Ok [("fruit", 2)] ∧
   get_file_food_counts [scenario_row] scenario_types ["G1"] ["G1"]
     (PyList ["study.mzXML"]) 3 = Ok []) ∧
  (∀ net types all_groups some_groups level filename rest,
     file_loop net types all_groups some_groups level (filename :: rest) =
     file_food_counts ← get_file_food_counts net types all_groups some_groups
                           (PyList [filename]) level;
     kept ← file_loop net types all_groups some_groups level rest;
     Ok (if decide (0 < length file_food_counts)%nat
         then (filename, file_food_counts) :: kept
         else kept)).
Proof.
  assert (∀ filename df r,
     r ∈ select_files filename df ↔
     r ∈ df ∧ ∃ fn, fn ∈ py_iter filename ∧
                ∃ p q, UniqueFileSources r = p +:+ fn +:+ q) as Hiter.
  { intros filename df r. unfold select_files.
    rewrite list_elem_of_filter, Exists_exists.
    setoid_rewrite str_contains_spec. naive_solver. }
  split_and!; [exact Hiter | done | | | done | done | done].
  - intros f df r. rewrite Hiter. simpl.
    setoid_rewrite list_elem_of_singleton. naive_solver.
  - intros s df r. rewrite Hiter. simpl. split.
    + intros (Hr & fn & (c & -> & Hc)%elem_of_str_iter & Hsub).
      split; [done|]. exists c. split; [done|].
      by apply str_contains_char, str_contains_spec.
    + intros (Hr & c & Hc & Hin). split; [done|]. exists (String c "").
      split; [apply elem_of_str_iter; eauto|].
      by apply str_contains_spec, str_contains_char.
Qed.

(** ** The dataset aggregator *)

Lemma get_dataset_food_counts_run path st all_groups some_groups level w :
  get_dataset_food_counts path st all_groups some_groups level w =
  (match tsv_files w !! path with
   | Some net =>
       dataset_food_counts net (filter_sample_types st (foodomics_metadata w))
                           all_groups some_groups level
   | None => Raise FileNotFoundError
   end, w).
Proof.
  unfold get_dataset_food_counts, mbind, IO_bind, read_csv.
  destruct (tsv_files w !! path) as [net|]; reflexivity.
Qed.

Lemma Forall2_elem_of_zip {A B : Type} (P : A → B → Prop) (l : list A) (k : list B) x y :
  Forall2 P l k → (x, y) ∈ zip l k → P x y.
Proof.
  induction 1 as [|a b l k Hab Hlk IH]; simpl.
  - by intros ?%elem_of_nil.
  - intros [[= -> ->]|Hin]%elem_of_cons; [done | by apply IH].
Qed.

(** What the engine returns has distinct labels and positive counts. *)
Lemma get_file_food_counts_entries net types all_groups some_groups filename level counts :
  get_file_food_counts net types all_groups some_groups filename level = Ok counts →
  NoDup counts.*1 ∧ Forall (λ e, 0 < e.2) counts.
Proof.
  intros Hget.
  apply get_file_food_counts_inv in Hget as (df & column & _ & _ & ->). simpl. split.
  - apply NoDup_value_counts.
  - apply Forall_forall. intros [x c] Hin.
    apply elem_of_filter_counts in Hin as (Hx & -> & _). by apply count_eq_pos.
Qed.

Lemma has_nonzero_length (counts : Series) :
  Forall (λ e, 0 < e.2) counts → has_nonzero counts ↔ (0 < length counts)%nat.
Proof.
  unfold has_nonzero. destruct 1 as [|e counts He Hrest]; simpl.
  - split; [by intros ?%Exists_nil | lia].
  - split; [lia|]. intros _. left. lia.
Qed.

Lemma file_loop_inv net types all_groups some_groups level files kept :
  file_loop net types all_groups some_groups level files = Ok kept →
  ∃ vectors,
    Forall2 (λ f v, get_file_food_counts net types all_groups some_groups
                      (PyList [f]) level = Ok v) files vectors ∧
    kept = filter (λ fv, has_nonzero fv.2) (zip files vectors).
Proof.
  revert kept. induction files as [|f files IH]; simpl; intros kept Hloop.
  - injection Hloop as <-. exists []. split; [constructor | done].
  - destruct (get_file_food_counts _ _ _ _ (PyList [f]) _) as [v|] eqn:Hv; [|done].
    destruct (file_loop _ _ _ _ _ files) as [kept'|] eqn:Hrest; [|done].
    simpl in Hloop. injection Hloop as <-.
    destruct (IH kept' eq_refl) as (vectors & Hall & ->).
    exists (v :: vectors). split; [by constructor|]. simpl.
    apply get_file_food_counts_entries in Hv as [_ Hpos].
    rewrite filter_cons. simpl.
    destruct (decide (has_nonzero v)) as [Hnz|Hnz];
      rewrite has_nonzero_length in Hnz by done;
      [by rewrite decide_True | by rewrite decide_False].
Qed.

Lemma file_loop_all_empty net types all_groups some_groups level files :
  (∀ f, f ∈ files →
        get_file_food_counts net types all_groups some_groups (PyList [f]) level = Ok []) →
  file_loop net types all_groups some_groups level files = Ok [].
Proof.
  induction files as [|f files IH]; intros Hempty; simpl; [done|].
  rewrite Hempty by left. rewrite IH; [done|]. intros f' Hf'. apply Hempty. by right.
Qed.

(** C4, on the code: when no study file has a count to keep, the list
    handed to [pd.concat] is empty and the call raises a [ValueError]. *)
Theorem C4_no_counts_raises path st all_groups some_groups level w net :
  tsv_files w !! path = Some net →
  (∀ f, f ∈ (get_sample_metadata net all_groups).*2 →
        get_file_food_counts net (filter_sample_types st (foodomics_metadata w))
          all_groups some_groups (PyList [f]) level = Ok []) →
  (get_dataset_food_counts path st all_groups some_groups level w).1 = Raise ValueError.
Proof.
  intros Hnet Hempty. rewrite get_dataset_food_counts_run, Hnet. simpl.
  unfold dataset_food_counts. by rewrite file_loop_all_empty.
Qed.

Lemma C4_no_counts_raises_witness :
  tsv_files study_world !! "network.tsv" = Some study_network ∧
  (get_dataset_food_counts "network.tsv" "complex" ["G1"] ["G4"] 3 study_world).1
  = Raise ValueError.
Proof.
  split; [reflexivity|].
  apply (C4_no_counts_raises "network.tsv" "complex" ["G1"] ["G4"] 3 study_world
           study_network); [reflexivity|].
  intros f Hf.
  assert (f ∈ ["s1.mzXML"; "s2.mzXML"]) as Hfiles by exact Hf.
  rewrite !elem_of_cons in Hfiles.
  destruct Hfiles as [->|[->|Hnil]]; [reflexivity | reflexivity |].
  by apply elem_of_nil in Hnil.
Defined.

Lemma concat_axis1_T_cons (series : list Series) :
  series ≠ [] →
  concat_axis1_T series =
  let labels := merge_sort String.le (drop_duplicates (series ≫= λ s : Series, s.*1)) in
  Ok (labels, (λ s, (λ c, series_get c s) <$> labels) <$> series).
Proof. by destruct series. Qed.

Lemma dataset_food_counts_inv net types all_groups some_groups level M :
  dataset_food_counts net types all_groups some_groups level = Ok M →
  ∃ vectors,
    let files := (get_sample_metadata net all_groups).*2 in
    let kept := filter (λ fv, has_nonzero fv.2) (zip files vectors) in
    let labels := merge_sort String.le (drop_duplicates (kept.*2 ≫= λ s : Series, s.*1)) in
    Forall2 (λ f v, get_file_food_counts net types all_groups some_groups
                      (PyList [f]) level = Ok v) files vectors ∧
    kept ≠ [] ∧
    M = {| df_index := kept.*1;
           df_columns := labels;
           df_values := (λ fv : string * Series,
                           (λ c, default 0 (series_get c fv.2)) <$> labels) <$> kept |}.
Proof.
  unfold dataset_food_counts. intros HM.
  destruct (file_loop _ _ _ _ _ _) as [kept|] eqn:Hloop; [|done].
  apply file_loop_inv in Hloop as (vectors & Hall & ->).
  exists vectors. simpl. split; [done|].
  set (kept := filter _ _) in *. simpl in HM.
  destruct (decide (kept = [])) as [Hnil|Hne].
  { rewrite Hnil in HM. done. }
  split; [done|].
  rewrite concat_axis1_T_cons in HM by (by destruct kept).
  simpl in HM. injection HM as <-. f_equal.
  unfold fillna_int. rewrite <- !list_fmap_compose.
  apply list_fmap_ext. intros i [f v] _. simpl.
  by rewrite <- list_fmap_compose.
Qed.

(** C6: the rows of the matrix are the study files whose count vector has a
    nonzero entry, in the order the files were processed; its columns are
    the labels those vectors hold; a cell holds the count the engine
    returned for that file and label, and exactly 0 where the engine
    returned none. *)
Theorem C6_matrix_completeness path st all_groups some_groups level w M w' :
  get_dataset_food_counts path st all_groups some_groups level w = (Ok M, w') →
  ∃ net vectors,
    tsv_files w !! path = Some net ∧
    let types := filter_sample_types st (foodomics_metadata w) in
    let files := (get_sample_metadata net all_groups).*2 in
    let kept := filter (λ fv, has_nonzero fv.2) (zip files vectors) in
    Forall2 (λ f v, get_file_food_counts net types all_groups some_groups
                      (PyList [f]) level = Ok v) files vectors ∧
    df_index M = kept.*1 ∧
    length (df_values M) = length (df_index M) ∧
    (∀ c, c ∈ df_columns M ↔ ∃ fv, fv ∈ kept ∧ c ∈ fv.2.*1) ∧
    (∀ i j f v c,
       kept !! i = Some (f, v) → df_columns M !! j = Some c →
       (∀ n, (c, n) ∈ v → df_cell M i j = Some n) ∧
       (c ∉ v.*1 → df_cell M i j = Some 0)).
Proof.
  rewrite get_dataset_food_counts_run. intros [= HM <-].
  destruct (tsv_files w !! path) as [net|] eqn:Hnet; [|done].
  apply dataset_food_counts_inv in HM as (vectors & Hall & Hne & ->).
  exists net, vectors. split; [done|]. simpl.
  set (files := (get_sample_metadata net all_groups).*2) in *.
  set (kept := filter _ (zip files vectors)) in *.
  set (labels := merge_sort _ _).
  split_and!; [done | done | by rewrite !length_fmap | |].
  - intros c. unfold labels.
    rewrite merge_sort_Permutation, elem_of_drop_duplicates, list_elem_of_bind. split.
    + intros (s & Hc & Hs). apply list_elem_of_fmap in Hs as (fv & -> & Hfv). eauto.
    + intros (fv & Hfv & Hc). exists fv.2. split; [done|].
      apply list_elem_of_fmap. eauto.
  - intros i j f v c Hi Hj.
    assert (df_cell
              {| df_index := kept.*1; df_columns := labels;
                 df_values := (λ fv : string * Series,
                                 (λ c, default 0 (series_get c fv.2)) <$> labels) <$> kept |}
              i j = Some (default 0 (series_get c v))) as ->.
    { unfold df_cell. simpl. rewrite list_lookup_fmap, Hi. simpl.
      by rewrite list_lookup_fmap, Hj. }
    assert (NoDup v.*1) as Hnd.
    { assert ((f, v) ∈ zip files vectors) as Hin.
      { apply list_elem_of_lookup_2 in Hi. by apply list_elem_of_filter in Hi as [_ ?]. }
      apply (Forall2_elem_of_zip _ _ _ _ _ Hall) in Hin.
      by apply get_file_food_counts_entries in Hin as [? _]. }
    split.
    + intros n Hn. apply series_get_Some in Hn; [|done]. by rewrite Hn.
    + intros Hc. apply series_get_None in Hc. by rewrite Hc.
Qed.

Lemma C6_matrix_completeness_witness :
  ∃ net vectors,
    tsv_files study_world !! "network.tsv" = Some net ∧
    let types := filter_sample_types "all" (foodomics_metadata study_world) in
    let files := (get_sample_metadata net ["G1"]).*2 in
    let kept := filter (λ fv, has_nonzero fv.2) (zip files vectors) in
    Forall2 (λ f v, get_file_food_counts net types ["G1"] ["G4"]
                      (PyList [f]) 1 = Ok v) files vectors ∧
    ["s1.mzXML"; "s2.mzXML"] = kept.*1 ∧
    length [[1; 0]; [0; 1]] = length ["s1.mzXML"; "s2.mzXML"] ∧
    (∀ c, c ∈ ["fruit"; "vegetable"] ↔ ∃ fv, fv ∈ kept ∧ c ∈ fv.2.*1) ∧
    (∀ i j f v c,
       kept !! i = Some (f, v) → ["fruit"; "vegetable"] !! j = Some c →
       (∀ n, (c, n) ∈ v →
             df_cell {| df_index := ["s1.mzXML"; "s2.mzXML"];
                        df_columns := ["fruit"; "vegetable"];
                        df_values := [[1; 0]; [0; 1]] |} i j = Some n) ∧
       (c ∉ v.*1 →
             df_cell {| df_index := ["s1.mzXML"; "s2.mzXML"];
                        df_columns := ["fruit"; "vegetable"];
                        df_values := [[1; 0]; [0; 1]] |} i j = Some 0)).
Proof.
  apply (C6_matrix_completeness "network.tsv" "all" ["G1"] ["G4"] 1 study_world
           {| df_index := ["s1.mzXML"; "s2.mzXML"];
              df_columns := ["fruit"; "vegetable"];
              df_values := [[1; 0]; [0; 1]] |} study_world).
  reflexivity.
Defined.

(** ** The multi-level aggregator *)

Lemma result_bind_inv {A B : Type} (m : result A) (k : A → result B) (b : B) :
  m ≫= k = Ok b → ∃ a, m = Ok a ∧ k a = Ok b.
Proof. destruct m as [a|e]; [eauto | done]. Qed.

Lemma io_map_lift {A B : Type} (f : A → IO B) (g : A → result B) (l : list A) (w : World) :
  (∀ a, f a w = (g a, w)) → io_map f l w = (rmap g l, w).
Proof.
  intros Hf. induction l as [|a l IH]; [done|]. simpl.
  unfold mbind at 1, IO_bind. rewrite Hf. destruct (g a) as [b|e]; [|done]. simpl.
  unfold mbind at 1, IO_bind. rewrite IH. by destruct (rmap g l).
Qed.

Lemma get_dataset_food_counts_all_run path st all_groups some_groups levels w :
  get_dataset_food_counts_all path st all_groups some_groups levels w =
  (match tsv_files w !! path with
   | Some net =>
       all_data ← rmap (level_frame net (filter_sample_types st (foodomics_metadata w))
                                    all_groups some_groups)
                       (py_range (levels + 1));
       result_df ← concat_rows all_data;
       map_group (get_sample_metadata net all_groups) result_df
   | None => Raise FileNotFoundError
   end, w).
Proof.
  unfold get_dataset_food_counts_all, mbind at 1, IO_bind, read_csv.
  destruct (tsv_files w !! path) as [net|] eqn:Hnet; [|done].
  unfold mbind at 1, IO_bind.
  rewrite (io_map_lift _ (level_frame net (filter_sample_types st (foodomics_metadata w))
                                      all_groups some_groups)).
  - destruct (rmap _ _) as [all_data|]; [|done]. simpl.
    unfold mbind at 1, IO_bind, lift. by destruct (concat_rows all_data).
  - intros level. unfold mbind at 1, IO_bind.
    rewrite get_dataset_food_counts_run, Hnet. unfold level_frame.
    destruct (dataset_food_counts _ _ _ _ _) as [M|]; [|done]. simpl.
    unfold mbind at 1, IO_bind, lift. by destruct (reset_index_melt M).
Qed.

(** On a frame assembled from labelled vectors, [melt] lists, for every
    column in turn, the cell of every row. *)
Lemma melt_by_name {V : Type} (kept : list (string * V)) (labels : list string)
    (g : string * V → string → Z) :
  melt {| df_index := kept.*1;
          df_columns := labels;
          df_values := (λ fv, (λ c, g fv c) <$> labels) <$> kept |}
  = mjoin ((λ c, (λ fv, (fv.1, c, g fv c)) <$> kept) <$> labels).
Proof.
  unfold melt. simpl. f_equal.
  rewrite zip_with_fmap_l, zip_with_fmap_r, zip_with_diag.
  rewrite <- (imap_const (λ c, (λ fv : string * V, (fv.1, c, g fv c)) <$> kept)).
  apply imap_ext. intros j c Hj. simpl.
  rewrite <- list_fmap_compose. apply list_fmap_ext. intros i fv _. simpl.
  by rewrite nth_lookup, list_lookup_fmap, Hj.
Qed.

Lemma dataset_frame_shape net types all_groups some_groups level M :
  dataset_food_counts net types all_groups some_groups level = Ok M →
  ∃ kept : list (string * Series),
    kept ≠ [] ∧ df_columns M ≠ [] ∧ NoDup (df_columns M) ∧
    df_index M = kept.*1 ∧
    sublist kept.*1 (get_sample_metadata net all_groups).*2 ∧
    df_values M = (λ fv : string * Series,
                     (λ c, default 0 (series_get c fv.2)) <$> df_columns M) <$> kept ∧
    melt M = mjoin ((λ c, (λ fv : string * Series,
                             (fv.1, c, default 0 (series_get c fv.2))) <$> kept)
                    <$> df_columns M).
Proof.
  intros HM. apply dataset_food_counts_inv in HM as (vectors & Hall & Hne & ->).
  simpl in *. set (files := (get_sample_metadata net all_groups).*2) in *.
  set (kept := filter _ (zip files vectors)) in *.
  set (labels := merge_sort _ _).
  exists kept. split_and!; [done | | | done | | done |].
  - destruct kept as [|[f v] kept'] eqn:Hkept; [done|].
    assert (has_nonzero v) as Hv.
    { assert ((f, v) ∈ kept) as Hin by (rewrite Hkept; left).
      by apply list_elem_of_filter in Hin as [? _]. }
    destruct v as [|[c n] v']; [by apply Exists_nil in Hv|].
    assert (c ∈ labels) as Hc.
    { unfold labels. rewrite merge_sort_Permutation, elem_of_drop_duplicates.
      simpl. left. }
    intros Hnil. rewrite Hnil in Hc. by apply elem_of_nil in Hc.
  - unfold labels. rewrite merge_sort_Permutation. apply NoDup_drop_duplicates.
  - unfold kept. etrans; [apply fmap_sublist, sublist_filter|].
    rewrite fst_zip; [done|]. by rewrite (Forall2_length _ _ _ Hall).
  - apply (melt_by_name kept labels (λ fv c, default 0 (series_get c fv.2))).
Qed.

Lemma level_frames_inv net types all_groups some_groups levels all_data :
  rmap (level_frame net types all_groups some_groups) levels = Ok all_data →
  ∃ frames,
    Forall2 (λ level M, dataset_food_counts net types all_groups some_groups level = Ok M)
            levels frames ∧
    all_data = zip_with (λ level M, (λ r, (r, level)) <$> melt M) levels frames.
Proof.
  rewrite rmap_Ok. induction 1 as [|level blk levels all_data Hblk Hrest IH].
  - exists []. split; [constructor | done].
  - destruct IH as (frames & Hframes & ->). unfold level_frame in Hblk.
    destruct (dataset_food_counts _ _ _ _ level) as [M|] eqn:HM; [|done].
    simpl in Hblk. unfold reset_index_melt in Hblk.
    case_decide; [done|]. case_decide; [done|].
    simpl in Hblk. injection Hblk as <-.
    exists (M :: frames). split; [by constructor | done].
Qed.

Lemma get_dataset_food_counts_all_inv path st all_groups some_groups levels w long w' :
  get_dataset_food_counts_all path st all_groups some_groups levels w = (Ok long, w') →
  ∃ net frames,
    tsv_files w !! path = Some net ∧
    NoDup (get_sample_metadata net all_groups).*2 ∧
    Forall2 (λ level M,
               dataset_food_counts net (filter_sample_types st (foodomics_metadata w))
                                   all_groups some_groups level = Ok M)
            (py_range (levels + 1)) frames ∧
    long = long_row (get_sample_metadata net all_groups) <$>
             mjoin (zip_with (λ level M, (λ r, (r, level)) <$> melt M)
                             (py_range (levels + 1)) frames) ∧
    lr_cells <$> long =
      mjoin (zip_with (λ level M, (λ r, (r, level)) <$> melt M)
                      (py_range (levels + 1)) frames).
Proof.
  rewrite get_dataset_food_counts_all_run. intros [= Hlong _].
  destruct (tsv_files w !! path) as [net|]; [|done].
  apply result_bind_inv in Hlong as (all_data & Hdata & Hlong).
  apply result_bind_inv in Hlong as (rows & Hrows & Hlong).
  apply level_frames_inv in Hdata as (frames & Hframes & Hdata).
  exists net, frames. split; [done|].
  assert (rows = mjoin all_data) as -> by (destruct all_data; by simplify_eq/=).
  rewrite <- Hdata. unfold map_group in Hlong. case_decide as Hnd; [|done].
  injection Hlong as <-. split_and!; [done..|].
  rewrite <- list_fmap_compose. rewrite <- (list_fmap_id (mjoin all_data)) at 2.
  apply list_fmap_ext. by intros i [[[f c] n] lv] _.
Qed.

(** *** Order of the long table *)

Lemma Forall2_zip_with_r {A B C : Type} (P : A → B → Prop) (Q : A → C → Prop)
    (h : A → B → C) (l : list A) (k : list B) :
  (∀ a b, P a b → Q a (h a b)) → Forall2 P l k → Forall2 Q l (zip_with h l k).
Proof. intros HPQ. induction 1; simpl; constructor; auto. Qed.

Lemma StronglySorted_py_range (n : Z) : StronglySorted Z.le (py_range n).
Proof.
  unfold py_range, seqZ. generalize (Z.to_nat n) as len. generalize 0%nat as start.
  intros start len. revert start. induction len as [|len IH]; intros start; simpl.
  - constructor.
  - constructor; [apply IH|]. apply Forall_forall. intros x Hx.
    apply list_elem_of_fmap in Hx as (i & -> & Hi). apply elem_of_seq in Hi. lia.
Qed.

Lemma keyed_blocks_elem_of {A K : Type} (key : A → K) keys (blocks : list (list A)) x :
  keyed_blocks key keys blocks → x ∈ key <$> mjoin blocks → x ∈ keys.
Proof.
  induction 1 as [|k blk keys blocks Hblk Hrest IH]; simpl.
  - by intros ?%elem_of_nil.
  - rewrite fmap_app, elem_of_app, elem_of_cons. intros [Hx|Hx]; [left|right; auto].
    apply list_elem_of_fmap in Hx as (r & -> & Hr).
    by apply (proj1 (Forall_forall _ _) Hblk).
Qed.

Lemma keyed_blocks_sorted {A : Type} (key : A → Z) keys (blocks : list (list A)) :
  keyed_blocks key keys blocks →
  StronglySorted Z.le keys → StronglySorted Z.le (key <$> mjoin blocks).
Proof.
  induction 1 as [|k blk keys blocks Hblk Hrest IH]; simpl; intros Hsorted.
  - constructor.
  - apply StronglySorted_inv in Hsorted as [Hsorted Hk].
    rewrite fmap_app. apply StronglySorted_app_2; [| |by apply IH].
    + intros x1 x2 Hx1 Hx2.
      apply list_elem_of_fmap in Hx1 as (r & -> & Hr).
      rewrite (proj1 (Forall_forall _ _) Hblk r Hr).
      apply (proj1 (Forall_forall _ _) Hk).
      by apply (keyed_blocks_elem_of key keys blocks).
    + clear -Hblk. induction Hblk as [|r blk Hr Hblk IH]; simpl; constructor; [done|].
      apply Forall_forall. intros x Hx. apply list_elem_of_fmap in Hx as (r' & -> & Hr').
      rewrite Hr, (proj1 (Forall_forall _ _) Hblk r' Hr'). done.
Qed.

Lemma squeeze_replicate_app {K : Type} `{EqDecision K} (x : K) (m : nat) (l : list K) :
  (∀ y, head l = Some y → y ≠ x) →
  squeeze (replicate (S m) x ++ l) = x :: squeeze l.
Proof.
  intros Hhead. induction m as [|m IH].
  - simpl. destruct l as [|y l]; [done|].
    rewrite decide_False; [done|]. intros ->. by apply (Hhead y).
  - change (replicate (S (S m)) x ++ l) with (x :: replicate (S m) x ++ l).
    change (squeeze (x :: replicate (S m) x ++ l))
      with (if decide (x = x) then squeeze (replicate (S m) x ++ l)
            else x :: squeeze (replicate (S m) x ++ l)).
    by rewrite decide_True.
Qed.

Lemma runs_cons {K : Type} (x : K) (n : nat) (xns : list (K * nat)) :
  runs ((x, n) :: xns) = replicate n x ++ runs xns.
Proof. reflexivity. Qed.

Lemma runs_app {K : Type} (xns yns : list (K * nat)) :
  runs (xns ++ yns) = runs xns ++ runs yns.
Proof. unfold runs. apply bind_app. Qed.

Lemma squeeze_runs {K : Type} `{EqDecision K} (xns : list (K * nat)) :
  Forall (λ xn, (0 < xn.2)%nat) xns → NoDup xns.*1 → squeeze (runs xns) = xns.*1.
Proof.
  induction 1 as [|[x n] xns Hn Hrest IH]; [done|].
  rewrite fmap_cons. intros [Hx Hnd]%NoDup_cons. rewrite runs_cons.
  destruct n as [|m]; [simpl in Hn; lia|].
  rewrite squeeze_replicate_app; [by rewrite IH|].
  intros y Hy ->. apply Hx. destruct Hrest as [|[x' n'] xns' Hn' _]; [done|].
  rewrite runs_cons in Hy. destruct n' as [|m']; [simpl in Hn'; lia|].
  simpl in Hy. injection Hy as ->. rewrite fmap_cons. left.
Qed.

(** The (level, food type) keys of one melted frame: every column label
    repeated once per row. *)
Lemma melt_keys {V : Type} (level : Z) (kept : list (string * V)) (cols : list string)
    (g : string * V → string → Z) :
  (λ t : string * string * Z * Z, (t.2, t.1.1.2)) <$>
    ((λ r, (r, level)) <$>
       mjoin ((λ c, (λ fv : string * V, (fv.1, c, g fv c)) <$> kept) <$> cols))
  = runs ((λ c, ((level, c), length kept)) <$> cols).
Proof.
  induction cols as [|c cols IH]; [done|].
  rewrite !fmap_cons, runs_cons, <- IH. simpl. rewrite !fmap_app. f_equal.
  rewrite <- !list_fmap_compose. rewrite <- length_fmap with (f := λ fv : string * V, fv).
  rewrite list_fmap_id. by apply const_fmap.
Qed.

Lemma label_runs net types all_groups some_groups levels frames :
  Forall2 (λ level M, dataset_food_counts net types all_groups some_groups level = Ok M)
          levels frames →
  NoDup levels →
  ∃ xns : list (Z * string * nat),
    (λ t : string * string * Z * Z, (t.2, t.1.1.2)) <$>
      mjoin (zip_with (λ level M, (λ r, (r, level)) <$> melt M) levels frames)
    = runs xns ∧
    Forall (λ xn, (0 < xn.2)%nat) xns ∧
    NoDup xns.*1 ∧
    (∀ xn, xn ∈ xns → xn.1.1 ∈ levels).
Proof.
  induction 1 as [|level M levels frames HM Hrest IH]; intros Hnd.
  - exists []. split_and!; [done | constructor | constructor |].
    by intros xn ?%elem_of_nil.
  - apply NoDup_cons in Hnd as [Hlevel Hnd].
    destruct (IH Hnd) as (xns & Hkeys & Hpos & Hxns & Hin).
    apply dataset_frame_shape in HM
      as (kept & Hkept & _ & Hcols & _ & _ & _ & Hmelt).
    exists (((λ c, ((level, c), length kept)) <$> df_columns M) ++ xns).
    simpl. rewrite fmap_app, Hkeys, Hmelt, melt_keys, runs_app. split_and!.
    + done.
    + apply Forall_app. split; [|done]. apply Forall_fmap, Forall_forall.
      intros c _. simpl. destruct kept; [done | simpl; lia].
    + rewrite fmap_app. apply NoDup_app. split_and!; [| |done].
      * rewrite <- list_fmap_compose. apply NoDup_fmap_2; [|done].
        intros c1 c2 Hc. simpl in Hc. congruence.
      * intros [lv c] Hin1 Hin2.
        apply list_elem_of_fmap in Hin1 as ([[lv1 c1] n1] & Heq & Hin1).
        apply list_elem_of_fmap in Hin1 as (c' & Hc' & _).
        apply list_elem_of_fmap in Hin2 as (xn & Hxn & Hin2).
        apply Hin in Hin2. simpl in *. simplify_eq. by rewrite <- Hxn in Hin2.
    + intros xn [Hxn|Hxn]%elem_of_app.
      * apply list_elem_of_fmap in Hxn as (c & -> & _). left.
      * right. by apply Hin.
Qed.

(** C8, as the code has it: the long table is the concatenation, for the
    levels 0, 1, ... in ascending order, of the melted matrix of each level;
    within a level the rows come column by column, that is label-major:
    the rows of one food type are next to each other, with the files in
    the order of the matrix rows. *)
Theorem C8_long_rows_order path st all_groups some_groups levels w long w' :
  get_dataset_food_counts_all path st all_groups some_groups levels w = (Ok long, w') →
  ∃ frames,
    Forall2 (λ level M,
               (get_dataset_food_counts path st all_groups some_groups level w).1 = Ok M)
            (py_range (levels + 1)) frames ∧
    lr_cells <$> long =
      mjoin (zip_with (λ level M, (λ r, (r, level)) <$> melt M)
                      (py_range (levels + 1)) frames) ∧
    Sorted Z.le (lr_level <$> long) ∧
    label_major long.
Proof.
  intros Hall.
  apply get_dataset_food_counts_all_inv
    in Hall as (net & frames & Hnet & _ & Hframes & _ & Hlong).
  exists frames. split_and!.
  - eapply Forall2_impl; [exact Hframes|]. intros level M HM. simpl in HM.
    by rewrite get_dataset_food_counts_run, Hnet.
  - done.
  - apply StronglySorted_Sorted.
    assert (lr_level <$> long = snd <$> (lr_cells <$> long)) as ->.
    { rewrite <- list_fmap_compose. done. }
    rewrite Hlong. apply (keyed_blocks_sorted snd (py_range (levels + 1))).
    + eapply Forall2_zip_with_r; [|exact Hframes]. intros level M _. simpl.
      apply Forall_fmap, Forall_forall. done.
    + apply StronglySorted_py_range.
  - unfold label_major.
    assert ((λ r, (lr_level r, lr_food_type r)) <$> long
            = (λ t : string * string * Z * Z, (t.2, t.1.1.2)) <$> (lr_cells <$> long)) as ->.
    { rewrite <- list_fmap_compose. done. }
    rewrite Hlong.
    destruct (label_runs _ _ _ _ _ _ Hframes) as (xns & -> & Hpos & Hnd & _).
    { apply NoDup_seqZ. }
    by rewrite squeeze_runs.
Qed.

Lemma C8_long_rows_order_witness :
  get_dataset_food_counts_all "network.tsv" "all" ["G1"] ["G4"] 1 study_world
  = (Ok study_long, study_world) ∧
  Sorted Z.le (lr_level <$> study_long) ∧
  label_major study_long.
Proof.
  assert (get_dataset_food_counts_all "network.tsv" "all" ["G1"] ["G4"] 1 study_world
          = (Ok study_long, study_world)) as Hrun by reflexivity.
  split; [exact Hrun|].
  destruct (C8_long_rows_order _ _ _ _ _ _ _ _ Hrun) as (frames & _ & _ & Hsorted & Hlabel).
  split; [exact Hsorted | exact Hlabel].
Defined.

(** C8 as the specification words it fails on the code: in the long table
    of the study the two rows of [s1.mzXML] at level 0 are separated by a
    row of [s2.mzXML], so the table is not file-major. *)
Lemma C8_not_file_major :
  (get_dataset_food_counts_all "network.tsv" "all" ["G1"] ["G4"] 1 study_world).1
  = Ok study_long ∧
  ¬ file_major study_long.
Proof.
  split; [reflexivity|].
  unfold file_major. apply (bool_decide_eq_false_1 _). reflexivity.
Qed.

(** *** Reshaping the long table back *)

Lemma filter_Forall_nil {A : Type} (P : A → Prop) `{∀ x, Decision (P x)} (l : list A) :
  Forall (λ x, ¬ P x) l → filter P l = [].
Proof.
  induction 1 as [|x l Hx Hl IH]; [done|]. by rewrite filter_cons_False.
Qed.

Lemma drop_duplicates_app {A : Type} `{EqDecision A} (l k : list A) :
  drop_duplicates (l ++ k) = drop_duplicates l ++ filter (λ y, y ∉ l) (drop_duplicates k).
Proof.
  induction l as [|x l IH]; simpl.
  - symmetry. apply filter_Forall_id, Forall_forall. intros y _. apply not_elem_of_nil.
  - rewrite IH, filter_app, list_filter_filter. do 2 f_equal.
    apply list_filter_iff. intros y. rewrite not_elem_of_cons. naive_solver.
Qed.

Lemma drop_duplicates_replicate {A : Type} `{EqDecision A} (n : nat) (x : A) :
  (0 < n)%nat → drop_duplicates (replicate n x) = [x].
Proof.
  intros Hn. destruct n as [|n]; [lia|]. clear Hn. induction n as [|n IH]; [done|].
  change (drop_duplicates (replicate (S (S n)) x))
    with (x :: filter (λ y, y ≠ x) (drop_duplicates (replicate (S n) x))).
  rewrite IH. by rewrite filter_cons_False by naive_solver.
Qed.

Lemma NoDup_fst_unique {A B : Type} (l : list (A * B)) (x : A) (y1 y2 : B) :
  NoDup l.*1 → (x, y1) ∈ l → (x, y2) ∈ l → y1 = y2.
Proof.
  induction l as [|[a b] l IH]; [by intros _ ?%elem_of_nil|].
  rewrite fmap_cons. intros [Ha Hnd]%NoDup_cons.
  assert (∀ y, (a, y) ∈ l → False) as Hfresh.
  { intros y Hy. apply Ha. apply list_elem_of_fmap. by exists (a, y). }
  intros [[= -> ->]|H1]%elem_of_cons [[= ?]|H2]%elem_of_cons; subst.
  - done.
  - by destruct (Hfresh y2).
  - by destruct (Hfresh y1).
  - by apply IH.
Qed.

Section pivot.
Context {V : Type} (R : string * V → string → LongRow).
Hypothesis R_filename : ∀ fv c, lr_filename (R fv c) = fv.1.
Hypothesis R_food_type : ∀ fv c, lr_food_type (R fv c) = c.

Lemma pivot_rows_cons kept c labels :
  pivot_rows R kept (c :: labels) = ((λ fv, R fv c) <$> kept) ++ pivot_rows R kept labels.
Proof. reflexivity. Qed.

Lemma elem_of_pivot_rows kept labels r :
  r ∈ pivot_rows R kept labels ↔ ∃ c fv, c ∈ labels ∧ fv ∈ kept ∧ r = R fv c.
Proof.
  unfold pivot_rows. rewrite list_elem_of_join. split.
  - intros (blk & Hr & Hblk). apply list_elem_of_fmap in Hblk as (c & -> & Hc).
    apply list_elem_of_fmap in Hr as (fv & -> & Hfv). eauto.
  - intros (c & fv & Hc & Hfv & ->). exists ((λ fv, R fv c) <$> kept). split.
    + apply list_elem_of_fmap. eauto.
    + apply list_elem_of_fmap. eauto.
Qed.

Lemma pivot_rows_filenames kept labels :
  NoDup kept.*1 → labels ≠ [] →
  drop_duplicates (lr_filename <$> pivot_rows R kept labels) = kept.*1.
Proof.
  intros Hnd Hlabels. destruct labels as [|c cs]; [done|].
  rewrite pivot_rows_cons, fmap_app, drop_duplicates_app.
  assert (lr_filename <$> ((λ fv, R fv c) <$> kept) = kept.*1) as ->.
  { rewrite <- list_fmap_compose. apply list_fmap_ext. intros i fv _. apply R_filename. }
  rewrite drop_duplicates_NoDup by done.
  rewrite filter_Forall_nil; [by rewrite app_nil_r|].
  apply Forall_forall. intros f Hf Hnot. apply Hnot. clear Hnot.
  apply elem_of_drop_duplicates, list_elem_of_fmap in Hf as (r & -> & Hr).
  apply elem_of_pivot_rows in Hr as (c' & fv & _ & Hfv & ->).
  rewrite R_filename. apply list_elem_of_fmap. eauto.
Qed.

Lemma pivot_rows_food_types kept labels :
  NoDup labels → kept ≠ [] →
  drop_duplicates (lr_food_type <$> pivot_rows R kept labels) = labels.
Proof.
  intros Hnd Hkept. induction Hnd as [|c cs Hc Hcs IH]; [done|].
  rewrite pivot_rows_cons, fmap_app, drop_duplicates_app, IH.
  assert (lr_food_type <$> ((λ fv, R fv c) <$> kept) = replicate (length kept) c) as ->.
  { rewrite <- list_fmap_compose. apply const_fmap. intros i fv _. apply R_food_type. }
  rewrite drop_duplicates_replicate by (destruct kept; [done | simpl; lia]).
  simpl. f_equal. apply filter_Forall_id, Forall_forall.
  intros c' Hc' [-> _]%elem_of_replicate. done.
Qed.

Lemma pivot_lookup_rows kept labels fv c :
  NoDup kept.*1 → fv ∈ kept → c ∈ labels →
  pivot_lookup (pivot_rows R kept labels) fv.1 c = Some (lr_count (R fv c)).
Proof.
  intros Hnd Hfv Hc. unfold pivot_lookup.
  set (P := λ r, lr_filename r = fv.1 ∧ lr_food_type r = c).
  assert (R fv c ∈ filter P (pivot_rows R kept labels)) as Hin.
  { apply list_elem_of_filter. split; [by split|]. apply elem_of_pivot_rows. eauto. }
  destruct (filter P (pivot_rows R kept labels)) as [|r rest] eqn:Hfilter;
    [by apply elem_of_nil in Hin|].
  simpl. f_equal.
  assert (r ∈ filter P (pivot_rows R kept labels)) as Hr by (rewrite Hfilter; left).
  apply list_elem_of_filter in Hr as [[Hf Hl] Hr].
  apply elem_of_pivot_rows in Hr as (c' & fv' & Hc' & Hfv' & ->).
  rewrite R_filename in Hf. rewrite R_food_type in Hl. subst c'.
  assert (fv' = fv) as ->; [|done].
  destruct fv as [f v], fv' as [f' v']. simpl in Hf. subst f'. f_equal.
  by apply (NoDup_fst_unique kept f).
Qed.

(** Pivoting the rows of one level gives back the frame they were melted
    from. *)
Lemma pivot_counts_rows kept labels :
  NoDup kept.*1 → NoDup labels → kept ≠ [] → labels ≠ [] →
  pivot_counts (pivot_rows R kept labels)
  = Some {| df_index := kept.*1;
            df_columns := labels;
            df_values := (λ fv, (λ c, lr_count (R fv c)) <$> labels) <$> kept |}.
Proof.
  intros Hkept Hlabels Hk Hl. unfold pivot_counts.
  rewrite pivot_rows_filenames, pivot_rows_food_types by done.
  assert (mapM (λ f, mapM (λ c, pivot_lookup (pivot_rows R kept labels) f c) labels) kept.*1
          = Some ((λ fv, (λ c, lr_count (R fv c)) <$> labels) <$> kept)) as ->; [|done].
  apply mapM_Some. apply Forall2_fmap, Forall_Forall2_diag, Forall_forall.
  intros fv Hfv. apply mapM_Some. apply Forall2_fmap_r, Forall_Forall2_diag, Forall_forall.
  intros c Hc. by apply pivot_lookup_rows.
Qed.
End pivot.

Lemma filter_fmap {A B : Type} (f : A → B) (P : B → Prop) `{∀ x, Decision (P x)}
    (l : list A) :
  filter P (f <$> l) = f <$> filter (λ x, P (f x)) l.
Proof.
  induction l as [|a l IH]; [done|]. rewrite fmap_cons.
  destruct (decide (P (f a))).
  - rewrite !filter_cons_True by done. by rewrite fmap_cons, IH.
  - by rewrite !filter_cons_False by done.
Qed.

Lemma fmap_mjoin {A B : Type} (f : A → B) (ls : list (list A)) :
  f <$> mjoin ls = mjoin ((λ l, f <$> l) <$> ls).
Proof.
  induction ls as [|l ls IH]; [done|].
  rewrite fmap_cons. simpl. by rewrite fmap_app, IH.
Qed.

Lemma elem_of_level_blocks (levels : list Z) (frames : list DataFrame)
    (t : string * string * Z * Z) :
  t ∈ mjoin (zip_with (λ lv M, (λ r, (r, lv)) <$> melt M) levels frames) → t.2 ∈ levels.
Proof.
  revert frames. induction levels as [|lv levels IH]; intros [|M frames]; simpl;
    try (by intros ?%elem_of_nil).
  rewrite elem_of_app, elem_of_cons. intros [Ht|Ht]; [left|right; eauto].
  by apply list_elem_of_fmap in Ht as (r & -> & _).
Qed.

(** Selecting the rows of one level picks the melted frame of that level. *)
Lemma filter_level_blocks (levels : list Z) (frames : list DataFrame) k level M :
  NoDup levels → levels !! k = Some level → frames !! k = Some M →
  filter (λ t : string * string * Z * Z, t.2 = level)
         (mjoin (zip_with (λ lv M, (λ r, (r, lv)) <$> melt M) levels frames))
  = (λ r, (r, level)) <$> melt M.
Proof.
  revert frames k. induction levels as [|lv levels IH]; intros [|M0 frames] k Hnd Hk HM;
    try done.
  apply NoDup_cons in Hnd as [Hlv Hnd]. simpl. rewrite filter_app.
  destruct k as [|k]; simpl in Hk, HM.
  - injection Hk as ->. injection HM as ->.
    rewrite filter_Forall_id by (by apply Forall_fmap, Forall_forall).
    rewrite filter_Forall_nil; [by rewrite app_nil_r|].
    apply Forall_forall. intros t Ht Heq. apply Hlv. rewrite <- Heq.
    by apply (elem_of_level_blocks levels frames).
  - rewrite filter_Forall_nil; [by apply (IH frames k)|].
    apply Forall_fmap, Forall_forall. intros r _ Heq. simpl in Heq. subst lv.
    apply Hlv. by apply list_elem_of_lookup_2 in Hk.
Qed.

(** C7: taking the rows of one level of the long table and pivoting the
    count by filename and food type gives, for every level from 0 to
    [levels], the matrix that the dataset function returns for that level
    on the same inputs. *)
Theorem C7_long_round_trip path st all_groups some_groups levels w long w' :
  get_dataset_food_counts_all path st all_groups some_groups levels w = (Ok long, w') →
  ∀ level, 0 ≤ level ≤ levels →
  ∃ M,
    (get_dataset_food_counts path st all_groups some_groups level w).1 = Ok M ∧
    pivot_counts (long_at_level long level) = Some M.
Proof.
  intros Hall level Hlevel.
  apply get_dataset_food_counts_all_inv
    in Hall as (net & frames & Hnet & Hnd & Hframes & -> & _).
  assert (py_range (levels + 1) !! Z.to_nat level = Some level) as Hk.
  { apply lookup_seqZ. lia. }
  destruct (Forall2_lookup_l _ _ _ _ _ Hframes Hk) as (M & HMk & HM).
  exists M. split; [by rewrite get_dataset_food_counts_run, Hnet|].
  unfold long_at_level. rewrite filter_fmap.
  rewrite (list_filter_iff _ (λ t : string * string * Z * Z, t.2 = level)) by done.
  rewrite (filter_level_blocks (py_range (levels + 1)) frames _ _ _
             (NoDup_seqZ _ _) Hk HMk).
  apply dataset_frame_shape in HM
    as (kept & Hkept & Hcols & Hcols_nd & Hindex & Hsub & Hvalues & ->).
  set (md := get_sample_metadata net all_groups) in *.
  set (R := λ (fv : string * Series) (c : string),
              long_row md (fv.1, c, default 0 (series_get c fv.2), level)).
  assert (long_row md <$> ((λ r, (r, level)) <$>
            mjoin ((λ c, (λ fv : string * Series,
                           (fv.1, c, default 0 (series_get c fv.2))) <$> kept)
                   <$> df_columns M))
          = pivot_rows R kept (df_columns M)) as ->.
  { unfold pivot_rows. rewrite <- list_fmap_compose, fmap_mjoin, <- list_fmap_compose.
    f_equal. apply list_fmap_ext. intros i c _. simpl.
    by rewrite <- list_fmap_compose. }
  rewrite (pivot_counts_rows R); [| done | done | | done | done | done].
  - destruct M as [index columns values]. simpl in *. by rewrite Hindex, Hvalues.
  - exact (sublist_NoDup _ _ Hnd Hsub).
Qed.

Lemma C7_long_round_trip_witness :
  0 ≤ 1 ≤ 1 ∧
  ∃ M,
    (get_dataset_food_counts "network.tsv" "all" ["G1"] ["G4"] 1 study_world).1 = Ok M ∧
    pivot_counts (long_at_level study_long 1) = Some M.
Proof.
  assert (0 ≤ 1 ≤ 1) as Hlevel by lia.
  split; [exact Hlevel|].
  apply (C7_long_round_trip "network.tsv" "all" ["G1"] ["G4"] 1 study_world
           study_long study_world); [reflexivity | exact Hlevel].
Defined.

(** * Further properties of the module *)

(** ** Arguments of the file-count engine *)

Lemma sample_type_column_nonpositive (level : Z) :
  level ≤ 0 → sample_type_column level = Ok sample_name.
Proof. intros Hlevel. unfold sample_type_column. by rewrite decide_False by lia. Qed.

Lemma sample_type_column_above_6 (level : Z) :
  6 < level → sample_type_column level = Raise KeyError.
Proof.
  intros Hlevel. unfold sample_type_column. rewrite decide_True by lia.
  destruct level as [|p|p]; [lia| |lia].
  destruct p as [[[?|?|]|[?|?|]|]|[[?|?|]|[?|?|]|]|]; try reflexivity; lia.
Qed.

Lemma sample_type_column_Raise (level : Z) (e : exn) :
  sample_type_column level = Raise e → e = KeyError.
Proof.
  unfold sample_type_column. case_decide; [|done].
  destruct level as [|p|p]; try (by intros [= <-]).
  destruct p as [[[?|?|]|[?|?|]|]|[[?|?|]|[?|?|]|]|]; try done; by intros [= <-].
Qed.

Lemma group_column_Raise (g : string) (e : exn) :
  group_column g = Raise e →
  (e = KeyError ∧ g ∉ table_columns) ∨ (e = TypeError ∧ g ∈ text_columns).
Proof.
  unfold group_column. repeat case_decide; try done.
  - intros [= <-]. by right.
  - intros [= <-]. left. split; [done|]. unfold table_columns.
    rewrite elem_of_app, !elem_of_cons, elem_of_nil. naive_solver.
Qed.

Lemma rmap_group_column_Raise (names : list string) (e : exn) :
  Forall (λ g, g ∈ table_columns) names →
  rmap group_column names = Raise e →
  e = TypeError ∧ ∃ g, g ∈ names ∧ g ∈ text_columns.
Proof.
  induction 1 as [|g names Hg Hnames IH]; simpl; [done|].
  destruct (group_column g) as [c|e'] eqn:Hc; simpl.
  - destruct (rmap group_column names) as [cols|e'']; simpl; [done|].
    intros [= <-]. destruct IH as [-> (g' & Hin & Htext)]; [done|].
    split; [done|]. exists g'. split; [by right | done].
  - intros [= <-]. apply group_column_Raise in Hc as [[_ Hno]|[-> Htext]]; [done|].
    split; [done|]. exists g. split; [left | done].
Qed.

Lemma rmap_group_column_text (names : list string) (g : string) :
  Forall (λ g, g ∈ table_columns) names → g ∈ names → g ∈ text_columns →
  rmap group_column names = Raise TypeError.
Proof.
  intros Hcols Hin Htext.
  destruct (rmap group_column names) as [cols|e] eqn:Hmap.
  - apply rmap_Ok in Hmap.
    destruct (proj1 (list_elem_of_lookup _ _) Hin) as [i Hi].
    destruct (Forall2_lookup_l _ _ _ _ _ Hmap Hi) as (c & _ & Hc).
    assert (g ∈ groups) as Hg by (apply group_column_is_Ok; eauto).
    exfalso. revert Hg Htext. unfold groups, text_columns.
    rewrite elem_of_list_to_set, !elem_of_cons, !elem_of_nil. naive_solver.
  - by destruct (rmap_group_column_Raise names e Hcols Hmap) as [-> _].
Qed.

(** The outcome of comparing the columns of a list of names. *)
Lemma group_columns_Raise net (names : list string) (e : exn) :
  group_columns net names = Raise e →
  (e = KeyError ∧ ∃ g, g ∈ names ∧ g ∉ table_columns) ∨
  (e = TypeError ∧ net ≠ [] ∧ Forall (λ g, g ∈ table_columns) names ∧
   ∃ g, g ∈ names ∧ g ∈ text_columns).
Proof.
  unfold group_columns. case_decide as Hcols.
  - destruct net as [|r net]; [done|]. intros Hmap. right.
    destruct (rmap_group_column_Raise names e Hcols Hmap) as [-> Htext]. done.
  - intros [= <-]. left. split; [done|].
    apply not_Forall_Exists in Hcols; [|apply _].
    apply Exists_exists in Hcols as (g & Hg & Hbad). eauto.
Qed.

Lemma group_columns_unknown net (names : list string) (g : string) :
  g ∈ names → g ∉ table_columns → group_columns net names = Raise KeyError.
Proof.
  intros Hin Hg. unfold group_columns. rewrite decide_False; [done|].
  intros Hcols. by apply Hg, (proj1 (Forall_forall _ _) Hcols).
Qed.

Lemma group_columns_text net (names : list string) (g : string) :
  net ≠ [] → Forall (λ g, g ∈ table_columns) names → g ∈ names → g ∈ text_columns →
  group_columns net names = Raise TypeError.
Proof.
  intros Hnet Hcols Hin Htext. unfold group_columns. rewrite decide_True by done.
  destruct net as [|r net]; [done|]. by apply (rmap_group_column_text names g).
Qed.

Lemma group_columns_Ok_groups (r : ClusterRow) net (names : list string) cols :
  group_columns (r :: net) names = Ok cols → ∀ g, g ∈ names → g ∈ groups.
Proof.
  intros Hcols%group_columns_rows g Hg. apply rmap_Ok in Hcols.
  destruct (proj1 (list_elem_of_lookup _ _) Hg) as [i Hi].
  destruct (Forall2_lookup_l _ _ _ _ _ Hcols Hi) as (c & _ & Hc).
  apply group_column_is_Ok. eauto.
Qed.

Lemma select_groups_Raise net all_groups some_groups (e : exn) :
  select_groups net all_groups some_groups = Raise e → e = KeyError ∨ e = TypeError.
Proof.
  unfold select_groups.
  destruct (group_columns net all_groups) as [ca|e1] eqn:H1; simpl.
  - destruct (group_columns net some_groups) as [cs|e2] eqn:H2; simpl.
    + destruct (group_columns net (groups_excluded all_groups some_groups))
        as [ce|e3] eqn:H3; simpl; [done|].
      intros [= <-]. apply group_columns_Raise in H3. naive_solver.
    + intros [= <-]. apply group_columns_Raise in H2. naive_solver.
  - intros [= <-]. apply group_columns_Raise in H1. naive_solver.
Qed.

(** A selection with a row shows that the lists name group columns. *)
Lemma select_groups_Ok_groups net all_groups some_groups (r : ClusterRow) df :
  select_groups net all_groups some_groups = Ok (r :: df) →
  ∀ g, g ∈ all_groups ++ some_groups → g ∈ groups.
Proof.
  unfold select_groups. intros Hsel.
  destruct (group_columns net all_groups) as [ca|] eqn:H1; [|done].
  destruct (group_columns net some_groups) as [cs|] eqn:H2; [|done].
  destruct (group_columns net (groups_excluded all_groups some_groups)) as [ce|]; [|done].
  simpl in Hsel. injection Hsel as Hsel.
  destruct net as [|r0 net].
  { rewrite filter_nil in Hsel. done. }
  intros g [Hg|Hg]%elem_of_app.
  - by apply (group_columns_Ok_groups _ _ _ _ H1).
  - by apply (group_columns_Ok_groups _ _ _ _ H2).
Qed.

Lemma get_file_food_counts_Raise net types all_groups some_groups filename level e :
  get_file_food_counts net types all_groups some_groups filename level = Raise e →
  e = KeyError ∨ e = TypeError.
Proof.
  unfold get_file_food_counts.
  destruct (select_groups net all_groups some_groups) as [df|e1] eqn:Hdf; simpl;
    [|intros [= <-]; by apply (select_groups_Raise _ _ _ _ Hdf)].
  destruct df as [|r df]; simpl; [intros [= <-]; by left|].
  destruct (sample_type_column level) as [col|e2] eqn:Hcol; simpl; [done|].
  intros [= <-]. left. by apply (sample_type_column_Raise level).
Qed.

(** A call that returns was given a table with rows, group columns as
    names, and a level of 6 at most. *)
Lemma get_file_food_counts_Ok_args net types all_groups some_groups filename level counts :
  get_file_food_counts net types all_groups some_groups filename level = Ok counts →
  net ≠ [] ∧ (∀ g, g ∈ all_groups ++ some_groups → g ∈ groups) ∧ level ≤ 6.
Proof.
  unfold get_file_food_counts. intros Hget.
  destruct (select_groups net all_groups some_groups) as [df|] eqn:Hdf; [|done].
  destruct df as [|r df]; [done|]. simpl in Hget. split_and!.
  - intros ->. unfold select_groups in Hdf.
    destruct (group_columns [] all_groups); [|done].
    destruct (group_columns [] some_groups); [|done].
    by destruct (group_columns [] (groups_excluded all_groups some_groups)).
  - by apply (select_groups_Ok_groups _ _ _ _ _ Hdf).
  - destruct (decide (level ≤ 6)) as [|Habove]; [done|].
    by rewrite sample_type_column_above_6 in Hget by lia.
Qed.

Lemma get_file_food_counts_KeyError net types all_groups some_groups filename level :
  (∃ g, g ∈ all_groups ∧ g ∉ table_columns) ∨
  ((∀ g, g ∈ all_groups → g ∈ groups) ∧ ∃ g, g ∈ some_groups ∧ g ∉ table_columns) ∨
  ((∀ g, g ∈ all_groups ++ some_groups → g ∈ groups) ∧ 6 < level) →
  get_file_food_counts net types all_groups some_groups filename level = Raise KeyError.
Proof.
  intros [(g & Hin & Hg)|[[Hall (g & Hin & Hg)]|[Hgroups Hlevel]]].
  - unfold get_file_food_counts, select_groups.
    by rewrite (group_columns_unknown net all_groups g Hin Hg).
  - unfold get_file_food_counts, select_groups.
    destruct (group_columns_is_Ok net all_groups Hall) as [cols ->].
    by rewrite (group_columns_unknown net some_groups g Hin Hg).
  - destruct (get_file_food_counts net types all_groups some_groups filename level)
      as [counts|e] eqn:Hget.
    { apply get_file_food_counts_Ok_args in Hget. lia. }
    f_equal. revert Hget. unfold get_file_food_counts, select_groups.
    destruct (group_columns_is_Ok net all_groups) as [ca ->];
      [intros g Hg; apply Hgroups, elem_of_app; by left|].
    destruct (group_columns_is_Ok net some_groups) as [cs ->];
      [intros g Hg; apply Hgroups, elem_of_app; by right|].
    destruct (group_columns_is_Ok net (groups_excluded all_groups some_groups))
      as [ce ->]; [intros g Hg; by apply elem_of_groups_excluded in Hg as [Hg _]|].
    simpl. destruct (select_target_files filename _) as [df|e1] eqn:Hdf; simpl.
    + rewrite sample_type_column_above_6 by done. by intros [= <-].
    + intros [= <-]. unfold select_target_files in Hdf.
      destruct (filter _ net); congruence.
Qed.

Lemma get_file_food_counts_TypeError net types all_groups some_groups filename level :
  net ≠ [] →
  (∀ g, g ∈ all_groups → g ∈ table_columns) →
  (∃ g, g ∈ all_groups ∧ g ∈ text_columns) →
  get_file_food_counts net types all_groups some_groups filename level = Raise TypeError.
Proof.
  intros Hnet Hcols (g & Hin & Hg). unfold get_file_food_counts, select_groups.
  rewrite (group_columns_text net all_groups g); [done..| |done|done].
  by apply Forall_forall.
Qed.

(** X1: a level of 0 or below is treated as level 0, by the engine and by
    the dataset function alike: the tests of the level are [level > 0]. *)
Theorem nonpositive_level_is_level_0 level :
  level ≤ 0 →
  (∀ net types all_groups some_groups filename,
     get_file_food_counts net types all_groups some_groups filename level
     = get_file_food_counts net types all_groups some_groups filename 0) ∧
  (∀ path st all_groups some_groups w,
     get_dataset_food_counts path st all_groups some_groups level w
     = get_dataset_food_counts path st all_groups some_groups 0 w).
Proof.
  intros Hlevel.
  assert (∀ net types all_groups some_groups filename,
     get_file_food_counts net types all_groups some_groups filename level
     = get_file_food_counts net types all_groups some_groups filename 0) as Hfile.
  { intros. unfold get_file_food_counts.
    destruct (select_groups net all_groups some_groups) as [df|]; [|done].
    unfold mbind, result_bind.
    destruct (select_target_files filename df) as [df'|]; [|done].
    rewrite sample_type_column_nonpositive by done.
    change (sample_type_column 0) with (Ok sample_name).
    unfold water_count. by rewrite decide_False by lia. }
  split; [exact Hfile|].
  intros path st all_groups some_groups w. rewrite !get_dataset_food_counts_run.
  destruct (tsv_files w !! path) as [net|]; [|done]. f_equal.
  unfold dataset_food_counts. f_equal.
  induction (get_sample_metadata net all_groups).*2 as [|f files IH]; [done|].
  simpl. by rewrite Hfile, IH.
Qed.

Lemma nonpositive_level_is_level_0_witness :
  -3 ≤ 0 ∧
  get_dataset_food_counts "network.tsv" "all" ["G1"] ["G4"] (-3) study_world
  = get_dataset_food_counts "network.tsv" "all" ["G1"] ["G4"] 0 study_world.
Proof.
  assert (-3 ≤ 0) as Hlevel by lia.
  split; [exact Hlevel|].
  apply (proj2 (nonpositive_level_is_level_0 (-3) Hlevel)).
Defined.

(** X2: the exceptions of the engine.  A name in [all_groups] that is no
    column of the table is a [KeyError]; so is, with group columns in
    [all_groups], such a name in [some_groups]; on a table with rows, a text
    column of the table among the columns of [all_groups] is a [TypeError];
    with group columns in both lists a level above 6 is a [KeyError]; and
    the engine raises no exception other than these two. *)
Theorem engine_exceptions net types all_groups some_groups filename level :
  ((∃ g, g ∈ all_groups ∧ g ∉ table_columns) →
   get_file_food_counts net types all_groups some_groups filename level
   = Raise KeyError) ∧
  ((∀ g, g ∈ all_groups → g ∈ groups) →
   (∃ g, g ∈ some_groups ∧ g ∉ table_columns) →
   get_file_food_counts net types all_groups some_groups filename level
   = Raise KeyError) ∧
  (net ≠ [] →
   (∀ g, g ∈ all_groups → g ∈ table_columns) →
   (∃ g, g ∈ all_groups ∧ g ∈ text_columns) →
   get_file_food_counts net types all_groups some_groups filename level
   = Raise TypeError) ∧
  ((∀ g, g ∈ all_groups ++ some_groups → g ∈ groups) →
   6 < level →
   get_file_food_counts net types all_groups some_groups filename level
   = Raise KeyError) ∧
  (∀ e, get_file_food_counts net types all_groups some_groups filename level = Raise e →
        e = KeyError ∨ e = TypeError).
Proof.
  split_and!.
  - intros Hbad. apply get_file_food_counts_KeyError. by left.
  - intros Hall Hbad. apply get_file_food_counts_KeyError. right. by left.
  - apply get_file_food_counts_TypeError.
  - intros Hgroups Hlevel. apply get_file_food_counts_KeyError. right. by right.
  - intros e. apply get_file_food_counts_Raise.
Qed.

Lemma engine_exceptions_witness :
  get_file_food_counts [scenario_row] scenario_types ["G7"] ["G1"]
    (PyList ["ref1.mzXML"]) 3 = Raise KeyError ∧
  get_file_food_counts [scenario_row] scenario_types ["G1"] ["G7"]
    (PyList ["ref1.mzXML"]) 3 = Raise KeyError ∧
  get_file_food_counts [scenario_row] scenario_types ["G1"; "DefaultGroups"] ["G1"]
    (PyList ["ref1.mzXML"]) 3 = Raise TypeError ∧
  get_file_food_counts [scenario_row] scenario_types ["G1"] ["G1"]
    (PyList ["ref1.mzXML"]) 7 = Raise KeyError.
Proof.
  split_and!.
  - apply (proj1 (engine_exceptions [scenario_row] scenario_types ["G7"] ["G1"]
                    (PyList ["ref1.mzXML"]) 3)).
    exists "G7". split; [left|]. apply (bool_decide_unpack _); vm_compute; exact I.
  - apply (proj1 (proj2 (engine_exceptions [scenario_row] scenario_types ["G1"] ["G7"]
                           (PyList ["ref1.mzXML"]) 3))).
    + intros g Hg; decompose_list_elem_of; subst; apply (bool_decide_unpack _); vm_compute; exact I.
    + exists "G7". split; [left|]. apply (bool_decide_unpack _); vm_compute; exact I.
  - apply (proj1 (proj2 (proj2 (engine_exceptions [scenario_row] scenario_types
                                  ["G1"; "DefaultGroups"] ["G1"]
                                  (PyList ["ref1.mzXML"]) 3)))).
    + done.
    + intros g Hg; decompose_list_elem_of; subst; apply (bool_decide_unpack _); vm_compute; exact I.
    + exists "DefaultGroups". split; [right; left | left].
  - apply (proj1 (proj2 (proj2 (proj2 (engine_exceptions [scenario_row] scenario_types
                                         ["G1"] ["G1"] (PyList ["ref1.mzXML"]) 7))))).
    + intros g Hg; decompose_list_elem_of; subst; apply (bool_decide_unpack _); vm_compute; exact I.
    + lia.
Defined.

(** ** What the file-count engine returns *)



(** X4: a label is returned exactly when it labels, at the requested level,
    more exploded identifiers of the selected clusters than the floor, and
    its count is the number of those identifiers, an identifier listed by
    several selected clusters counting once for each; every returned label
    is therefore the label of a reference file listed by a selected cluster
    that names a target file. *)
Theorem engine_counts_meaning net types all_groups some_groups filename level counts :
  get_file_food_counts net types all_groups some_groups filename level = Ok counts →
  ∃ df column,
    select_groups net all_groups some_groups = Ok df ∧
    sample_type_column level = Ok column ∧
    let labelled :=
      reindex_dropna (column <$> types) (explode_files (select_files filename df)) in
    (∀ x c, (x, c) ∈ counts ↔
            x ∈ labelled ∧ c = count_eq x labelled ∧ water_count level labelled < c) ∧
    (∀ x c, (x, c) ∈ counts →
            ∃ r id rec,
              r ∈ df ∧
              Exists (λ fn, str_contains (UniqueFileSources r) fn) (py_iter filename) ∧
              id ∈ str_split "|" (UniqueFileSources r) ∧
              types !! id = Some rec ∧ column rec = Some x).
Proof.
  intros Hget.
  apply get_file_food_counts_inv in Hget as (df & column & Hdf & Hcol & ->).
  exists df, column. split; [done|]. split; [done|]. cbv zeta. split.
  - intros x c. apply elem_of_filter_counts.
  - intros x c (Hx & _ & _)%elem_of_filter_counts.
    apply elem_of_reindex_dropna in Hx as (id & Hid & Hlookup).
    unfold explode_files in Hid. apply list_elem_of_bind in Hid as (r & Hid & Hr).
    unfold select_files in Hr. apply list_elem_of_filter in Hr as [Hfn Hr].
    rewrite lookup_fmap in Hlookup.
    destruct (types !! id) as [rec|] eqn:Hrec; [|done].
    simpl in Hlookup. injection Hlookup as Hlabel.
    exists r, id, rec. done.
Qed.

Lemma engine_counts_meaning_witness :
  ∃ df column,
    select_groups study_network ["G1"] ["G4"] = Ok df ∧
    sample_type_column 1 = Ok column ∧
    let types := filter_sample_types "all" (foodomics_metadata study_world) in
    let labelled :=
      reindex_dropna (column <$> types)
                     (explode_files (select_files (PyList ["s1.mzXML"]) df)) in
    (∀ x c, (x, c) ∈ [("fruit", 1)] ↔
            x ∈ labelled ∧ c = count_eq x labelled ∧ water_count 1 labelled < c) ∧
    (∀ x c, (x, c) ∈ [("fruit", 1)] →
            ∃ r id rec,
              r ∈ df ∧
              Exists (λ fn, str_contains (UniqueFileSources r) fn)
                     (py_iter (PyList ["s1.mzXML"])) ∧
              id ∈ str_split "|" (UniqueFileSources r) ∧
              types !! id = Some rec ∧ column rec = Some x).
Proof.
  apply (engine_counts_meaning study_network
           (filter_sample_types "all" (foodomics_metadata study_world))
           ["G1"] ["G4"] (PyList ["s1.mzXML"]) 1).
  reflexivity.
Defined.

(** X5: the returned vector is empty exactly when no label occurs among the
    labelled identifiers more often than the floor. *)
Theorem engine_counts_empty_iff net types all_groups some_groups filename level counts :
  get_file_food_counts net types all_groups some_groups filename level = Ok counts →
  ∃ df column,
    select_groups net all_groups some_groups = Ok df ∧
    sample_type_column level = Ok column ∧
    let labelled :=
      reindex_dropna (column <$> types) (explode_files (select_files filename df)) in
    (counts = [] ↔
     ∀ x, x ∈ labelled → count_eq x labelled ≤ water_count level labelled).
Proof.
  intros Hget.
  apply get_file_food_counts_inv in Hget as (df & column & Hdf & Hcol & ->).
  exists df, column. split_and!; [done..|]. simpl.
  set (labelled := reindex_dropna _ _). set (floor := water_count level labelled).
  split.
  - intros Hnil x Hx. destruct (decide (count_eq x labelled ≤ floor)) as [|Hgt]; [done|].
    assert ((x, count_eq x labelled) ∈ filter_counts floor labelled) as Hin.
    { apply elem_of_filter_counts. split_and!; [done | done | lia]. }
    rewrite Hnil in Hin. by apply elem_of_nil in Hin.
  - intros Hall. destruct (filter_counts floor labelled) as [|[x c] rest] eqn:Hcounts;
      [done|].
    assert ((x, c) ∈ filter_counts floor labelled) as Hin by (rewrite Hcounts; left).
    apply elem_of_filter_counts in Hin as (Hx & -> & Hgt).
    specialize (Hall x Hx). lia.
Qed.

Lemma engine_counts_empty_iff_witness :
  ∃ df column,
    select_groups [scenario_row] ["G1"] ["G1"] = Ok df ∧
    sample_type_column 3 = Ok column ∧
    let labelled :=
      reindex_dropna (column <$> scenario_types)
                     (explode_files (select_files (PyList ["ref1.mzXML"]) df)) in
    ([("fruit", 2)] = [] ↔
     ∀ x, x ∈ labelled → count_eq x labelled ≤ water_count 3 labelled).
Proof.
  apply (engine_counts_empty_iff [scenario_row] scenario_types ["G1"] ["G1"]
           (PyList ["ref1.mzXML"]) 3).
  reflexivity.
Defined.

(** X6: with an empty list of filenames or an empty string as filename no
    cluster names a target file: a call that returns returns the empty
    vector, and the call does return it when the group selection has a row
    and the level is one of 0 to 6.  With an empty [some_groups] no cluster
    is selected at all, and the call never returns: it raises. *)
Theorem engine_nothing_selected net types all_groups some_groups filename level :
  (filename = PyList [] ∨ filename = PyStr "" →
   ∀ counts,
     get_file_food_counts net types all_groups some_groups filename level = Ok counts →
     counts = []) ∧
  (filename = PyList [] ∨ filename = PyStr "" →
   ∀ r df column,
     select_groups net all_groups some_groups = Ok (r :: df) →
     sample_type_column level = Ok column →
     get_file_food_counts net types all_groups some_groups filename level = Ok []) ∧
  (some_groups = [] →
   ∃ e, get_file_food_counts net types all_groups some_groups filename level = Raise e).
Proof.
  assert (filename = PyList [] ∨ filename = PyStr "" →
          ∀ df, select_files filename df = []) as Hfiles.
  { intros Hcase df. unfold select_files. apply filter_Forall_nil, Forall_forall.
    intros r Hr. destruct Hcase as [->| ->]; by intros ?%Exists_nil. }
  split_and!.
  - intros Hcase counts Hget.
    apply get_file_food_counts_inv in Hget as (df & column & Hdf & Hcol & ->).
    by rewrite (Hfiles Hcase).
  - intros Hcase r df column Hdf Hcol. unfold get_file_food_counts.
    rewrite Hdf. simpl. rewrite Hcol. simpl. by rewrite (Hfiles Hcase).
  - intros ->.
    destruct (get_file_food_counts net types all_groups [] filename level)
      as [counts|e] eqn:Hget; [|by exists e]. exfalso.
    revert Hget. unfold get_file_food_counts, select_groups.
    destruct (group_columns net all_groups) as [ca|]; [|done]. simpl.
    assert (group_columns net [] = Ok []) as ->.
    { unfold group_columns. rewrite decide_True by constructor. by destruct net. }
    simpl.
    destruct (group_columns net (groups_excluded all_groups [])) as [ce|]; [|done].
    simpl.
    match goal with
    | |- context [select_target_files _ ?l] => assert (l = []) as ->; [|done]
    end.
    apply filter_Forall_nil, Forall_forall. intros r _ (_ & Hex & _).
    by apply Exists_nil in Hex.
Qed.

Lemma engine_nothing_selected_witness :
  get_file_food_counts study_network
    (filter_sample_types "all" (foodomics_metadata study_world))
    ["G1"] ["G4"] (PyList []) 1 = Ok [] ∧
  ∃ e, get_file_food_counts study_network
         (filter_sample_types "all" (foodomics_metadata study_world))
         ["G1"] [] (PyList ["s1.mzXML"]) 1 = Raise e.
Proof.
  split.
  - eapply (proj1 (proj2 (engine_nothing_selected study_network
                            (filter_sample_types "all" (foodomics_metadata study_world))
                            ["G1"] ["G4"] (PyList []) 1))).
    + by left.
    + reflexivity.
    + reflexivity.
  - by apply (proj2 (proj2 (engine_nothing_selected study_network
                              (filter_sample_types "all" (foodomics_metadata study_world))
                              ["G1"] [] (PyList ["s1.mzXML"]) 1))).
Defined.

(** X7: when no labelled identifier is labelled "water", the floor drops
    nothing: the result is the plain frequency table of the labels. *)
Theorem engine_without_water net types all_groups some_groups filename level counts :
  get_file_food_counts net types all_groups some_groups filename level = Ok counts →
  ∃ df column,
    select_groups net all_groups some_groups = Ok df ∧
    sample_type_column level = Ok column ∧
    let labelled :=
      reindex_dropna (column <$> types) (explode_files (select_files filename df)) in
    ("water" ∉ labelled → counts = value_counts labelled).
Proof.
  intros Hget.
  apply get_file_food_counts_inv in Hget as (df & column & Hdf & Hcol & ->).
  exists df, column. split_and!; [done..|]. simpl. intros Hwater.
  set (labelled := reindex_dropna _ _) in *.
  assert (water_count level labelled = 0) as ->; [|apply filter_counts_0].
  unfold water_count. case_decide; [|done].
  destruct (decide (0 < count_eq "water" labelled)) as [Hpos|Hzero].
  - by apply count_eq_pos in Hpos.
  - unfold count_eq in *. lia.
Qed.

Lemma engine_without_water_witness :
  ∃ df column,
    select_groups study_network ["G1"] ["G4"] = Ok df ∧
    sample_type_column 1 = Ok column ∧
    let types := filter_sample_types "all" (foodomics_metadata study_world) in
    let labelled :=
      reindex_dropna (column <$> types)
                     (explode_files (select_files (PyList ["s1.mzXML"]) df)) in
    ("water" ∉ labelled → [("fruit", 1)] = value_counts labelled).
Proof.
  apply (engine_without_water study_network
           (filter_sample_types "all" (foodomics_metadata study_world))
           ["G1"] ["G4"] (PyList ["s1.mzXML"]) 1).
  reflexivity.
Defined.

(** ** Group lists and filenames as arguments *)

Lemma group_columns_Raise_as_sets net (names1 names2 : list string) (e : exn) :
  (∀ g, g ∈ names1 ↔ g ∈ names2) →
  group_columns net names1 = Raise e → group_columns net names2 = Raise e.
Proof.
  intros Hsame [[-> (g & Hg & Hbad)]|(-> & Hnet & Hcols & g & Hg & Htext)]%group_columns_Raise.
  - apply (group_columns_unknown net names2 g); [by apply Hsame | done].
  - apply (group_columns_text net names2 g); [done | | by apply Hsame | done].
    apply Forall_forall. intros g' Hg'%Hsame.
    by apply (proj1 (Forall_forall _ _) Hcols).
Qed.

Lemma group_columns_as_sets net (names1 names2 : list string) :
  (∀ g, g ∈ names1 ↔ g ∈ names2) →
  match group_columns net names1, group_columns net names2 with
  | Ok _, Ok _ => True
  | Raise e1, Raise e2 => e1 = e2
  | _, _ => False
  end.
Proof.
  intros Hsame.
  destruct (group_columns net names1) as [c1|e1] eqn:H1;
    destruct (group_columns net names2) as [c2|e2] eqn:H2; [done| | |].
  - apply (group_columns_Raise_as_sets net names2 names1) in H2; [congruence|].
    intros g. by rewrite Hsame.
  - apply (group_columns_Raise_as_sets net names1 names2) in H1; [congruence|done].
  - apply (group_columns_Raise_as_sets net names1 names2) in H1; [congruence|done].
Qed.

Lemma select_groups_as_sets net all1 some1 all2 some2 :
  (∀ g, g ∈ all1 ↔ g ∈ all2) → (∀ g, g ∈ some1 ↔ g ∈ some2) →
  select_groups net all1 some1 = select_groups net all2 some2.
Proof.
  intros Hall Hsome.
  assert (∀ g, g ∈ all1 ++ some1 ↔ g ∈ all2 ++ some2) as Happ.
  { intros g. rewrite !elem_of_app, Hall, Hsome. done. }
  assert (groups_excluded all1 some1 = groups_excluded all2 some2) as Hex.
  { unfold groups_excluded. f_equal. f_equal. apply set_eq. intros g.
    rewrite !elem_of_list_to_set. apply Happ. }
  unfold select_groups. rewrite Hex.
  pose proof (group_columns_as_sets net all1 all2 Hall) as Ha.
  pose proof (group_columns_as_sets net some1 some2 Hsome) as Hs.
  destruct (group_columns net all1) as [ca1|ea1] eqn:Ha1;
    destruct (group_columns net all2) as [ca2|ea2] eqn:Ha2;
    [|done|done|by subst]. simpl.
  destruct (group_columns net some1) as [cs1|es1] eqn:Hs1;
    destruct (group_columns net some2) as [cs2|es2] eqn:Hs2;
    [|done|done|by subst]. simpl.
  destruct (group_columns net (groups_excluded all2 some2)) as [ce|] eqn:He; [|done].
  simpl. f_equal. destruct net as [|r0 net]; [done|].
  apply group_columns_rows in Ha1, Ha2, Hs1, Hs2.
  apply list_filter_iff. intros r.
  rewrite (Forall_columns (λ v, 0 < v) _ _ _ Ha1).
  rewrite (Forall_columns (λ v, 0 < v) _ _ _ Ha2).
  rewrite (Exists_columns (λ v, 0 < v) _ _ _ Hs1).
  rewrite (Exists_columns (λ v, 0 < v) _ _ _ Hs2).
  setoid_rewrite Hall. setoid_rewrite Hsome. done.
Qed.

(** X8: the engine reads [all_groups] and [some_groups] as sets: two calls
    whose group lists have the same members, in any order and with any
    repetition, give the same outcome. *)
Theorem engine_group_lists_as_sets net types all1 some1 all2 some2 filename level :
  (∀ g, g ∈ all1 ↔ g ∈ all2) → (∀ g, g ∈ some1 ↔ g ∈ some2) →
  get_file_food_counts net types all1 some1 filename level
  = get_file_food_counts net types all2 some2 filename level.
Proof.
  intros Hall Hsome. unfold get_file_food_counts.
  by rewrite (select_groups_as_sets net all1 some1 all2 some2).
Qed.

Lemma engine_group_lists_as_sets_witness :
  get_file_food_counts study_network
    (filter_sample_types "all" (foodomics_metadata study_world))
    ["G1"] ["G4"] (PyList ["s1.mzXML"]) 1
  = get_file_food_counts study_network
      (filter_sample_types "all" (foodomics_metadata study_world))
      ["G1"; "G1"] ["G4"; "G4"] (PyList ["s1.mzXML"]) 1.
Proof.
  apply engine_group_lists_as_sets.
  - intros g. rewrite !elem_of_cons. tauto.
  - intros g. rewrite !elem_of_cons. tauto.
Defined.





(** ** Resolving the study files, continued *)

(** X10: rows appended to the clustering table only append study files: the
    pairs resolved from the table so far stay first and in place, followed
    by the new pairs of the appended rows; appending rows already present
    changes nothing. *)
Theorem sample_metadata_appending net more all_groups :
  get_sample_metadata (net ++ more) all_groups
  = get_sample_metadata net all_groups ++
    filter (λ p, p ∉ get_sample_metadata net all_groups)
           (get_sample_metadata more all_groups) ∧
  get_sample_metadata (net ++ net) all_groups = get_sample_metadata net all_groups.
Proof.
  assert (∀ more',
    get_sample_metadata (net ++ more') all_groups
    = get_sample_metadata net all_groups ++
      filter (λ p, p ∉ get_sample_metadata net all_groups)
             (get_sample_metadata more' all_groups)) as Happ.
  { intros more'. unfold get_sample_metadata.
    rewrite !filter_app, bind_app, drop_duplicates_app. f_equal.
    apply list_filter_iff. intros p. by rewrite elem_of_drop_duplicates. }
  split; [apply Happ|].
  rewrite Happ, filter_Forall_nil; [by rewrite app_nil_r|].
  apply Forall_forall. intros p Hp Hnot. done.
Qed.

(** X11: the resolver reads [all_groups] as a set, and resolves nothing for
    an empty one. *)
Theorem sample_metadata_groups_as_set net all1 all2 :
  (∀ g, g ∈ all1 ↔ g ∈ all2) →
  get_sample_metadata net all1 = get_sample_metadata net all2 ∧
  get_sample_metadata net [] = [].
Proof.
  intros Hall. split.
  - unfold get_sample_metadata. do 2 f_equal. by apply list_filter_iff.
  - unfold get_sample_metadata.
    rewrite (filter_Forall_nil (λ r, DefaultGroups r ∈ [])); [done|].
    apply Forall_forall. intros r _. apply not_elem_of_nil.
Qed.

Lemma sample_metadata_groups_as_set_witness :
  get_sample_metadata study_network ["G1"; "G2"]
  = get_sample_metadata study_network ["G2"; "G1"; "G1"].
Proof.
  apply (proj1 (sample_metadata_groups_as_set study_network ["G1"; "G2"]
                  ["G2"; "G1"; "G1"] ltac:(intros g; rewrite !elem_of_cons; tauto))).
Defined.

(** ** The sample types *)

(** X12: [get_sample_types] reads the packaged table and leaves the world as
    it was.  With "all" it returns the whole table; with any other value it
    returns exactly the rows whose [simple_complex] cell holds that value, so
    that rows with an empty cell appear under "all" only, the "simple" and
    the "complex" tables share no filename, and a value that no row carries
    gives an empty table rather than an error. *)
Theorem sample_types_selection (st : string) (w : World) :
  ∃ types,
    get_sample_types st w = (Ok types, w) ∧
    (st = "all" → types = foodomics_metadata w) ∧
    (st ≠ "all" →
     ∀ f rec, types !! f = Some rec ↔
              foodomics_metadata w !! f = Some rec ∧ simple_complex rec = Some st) ∧
    (∀ f rec, types !! f = Some rec → foodomics_metadata w !! f = Some rec) ∧
    (∀ st' types' f,
       st ≠ "all" → st' ≠ "all" → st ≠ st' →
       get_sample_types st' w = (Ok types', w) →
       is_Some (types !! f) → types' !! f = None) ∧
    (st ≠ "all" →
     (∀ f rec, foodomics_metadata w !! f = Some rec → simple_complex rec ≠ Some st) →
     types = ∅).
Proof.
  exists (filter_sample_types st (foodomics_metadata w)).
  split; [reflexivity|]. unfold filter_sample_types. split_and!.
  - intros ->. done.
  - intros Hst f rec. rewrite decide_True by done.
    rewrite map_lookup_filter_Some. done.
  - intros f rec. case_decide; [|done]. by intros [? _]%map_lookup_filter_Some.
  - intros st' types' f Hst Hst' Hne [= <-] [rec Hrec].
    unfold filter_sample_types. rewrite decide_True in Hrec by done.
    rewrite decide_True by done.
    apply map_lookup_filter_Some in Hrec as [Hrec Hkind]. simpl in Hkind.
    apply map_lookup_filter_None. right. intros rec' Hrec' Hkind'. simpl in Hkind'.
    congruence.
  - intros Hst Hnone. rewrite decide_True by done.
    apply map_eq. intros f. rewrite lookup_empty.
    apply map_lookup_filter_None. right. intros rec Hrec Hkind. simpl in Hkind.
    by apply (Hnone f rec).
Qed.

Lemma sample_types_selection_witness :
  "complex" ≠ "all" ∧
  get_sample_types "complex" study_world = (Ok ∅, study_world).
Proof.
  assert ("complex" ≠ "all") as Hst by discriminate.
  split; [exact Hst|].
  destruct (sample_types_selection "complex" study_world)
    as (types & Hrun & _ & _ & _ & _ & Hnone).
  rewrite Hrun. f_equal. f_equal. apply (Hnone Hst).
  intros f rec Hrec. simpl in Hrec.
  destruct (decide (f = "ref1.mzXML")) as [->|Hf1].
  { rewrite lookup_insert_eq in Hrec. injection Hrec as <-. discriminate. }
  rewrite lookup_insert_ne in Hrec by done.
  destruct (decide (f = "ref2.mzXML")) as [->|Hf2].
  { rewrite lookup_insert_eq in Hrec. injection Hrec as <-. discriminate. }
  rewrite lookup_insert_ne in Hrec by done.
  rewrite lookup_empty in Hrec. discriminate.
Defined.

(** ** Shape of the count matrix *)

Lemma dataset_frame_kept net types all_groups some_groups level M :
  dataset_food_counts net types all_groups some_groups level = Ok M →
  ∃ kept : list (string * Series),
    kept ≠ [] ∧
    Forall (λ fv, get_file_food_counts net types all_groups some_groups
                    (PyList [fv.1]) level = Ok fv.2 ∧ fv.2 ≠ []) kept ∧
    sublist kept.*1 (get_sample_metadata net all_groups).*2 ∧
    (∀ c, c ∈ df_columns M ↔ ∃ fv, fv ∈ kept ∧ c ∈ fv.2.*1) ∧
    StronglySorted String.le (df_columns M) ∧
    NoDup (df_columns M) ∧
    M = {| df_index := kept.*1;
           df_columns := df_columns M;
           df_values := (λ fv : string * Series,
                           (λ c, default 0 (series_get c fv.2)) <$> df_columns M)
                        <$> kept |}.
Proof.
  intros HM. apply dataset_food_counts_inv in HM as (vectors & Hall & Hne & ->).
  simpl in *. set (files := (get_sample_metadata net all_groups).*2) in *.
  set (kept := filter _ (zip files vectors)) in *.
  exists kept. split_and!; [done | | | | | | done].
  - apply Forall_forall. intros [f v] Hfv.
    apply list_elem_of_filter in Hfv as [Hnz Hfv]. simpl in *. split.
    + by apply (Forall2_elem_of_zip _ _ _ _ _ Hall).
    + intros ->. by apply Exists_nil in Hnz.
  - unfold kept. etrans; [apply fmap_sublist, sublist_filter|].
    rewrite fst_zip; [done|]. by rewrite (Forall2_length _ _ _ Hall).
  - intros c. rewrite merge_sort_Permutation, elem_of_drop_duplicates, list_elem_of_bind.
    split.
    + intros (s & Hc & Hs). apply list_elem_of_fmap in Hs as (fv & -> & Hfv). eauto.
    + intros (fv & Hfv & Hc). exists fv.2. split; [done|]. apply list_elem_of_fmap. eauto.
  - apply StronglySorted_merge_sort; apply _.
  - rewrite merge_sort_Permutation. apply NoDup_drop_duplicates.
Qed.

(** X13: a returned matrix has at least one row and one column, its rows are
    as long as its list of columns, no cell is negative, and it has neither
    a row nor a column of zeros only. *)
Theorem matrix_has_no_zero_line path st all_groups some_groups level w M w' :
  get_dataset_food_counts path st all_groups some_groups level w = (Ok M, w') →
  df_index M ≠ [] ∧ df_columns M ≠ [] ∧
  Forall (λ row, length row = length (df_columns M)) (df_values M) ∧
  Forall (Forall (λ n, 0 ≤ n)) (df_values M) ∧
  Forall (Exists (λ n, 0 < n)) (df_values M) ∧
  (∀ j c, df_columns M !! j = Some c → ∃ i n, df_cell M i j = Some n ∧ 0 < n).
Proof.
  rewrite get_dataset_food_counts_run. intros [= HM _].
  destruct (tsv_files w !! path) as [net|]; [|done].
  apply dataset_frame_kept in HM
    as (kept & Hne & Hkept & _ & Hcols & _ & _ & HM).
  set (cols := df_columns M) in *.
  assert (∀ fv c n, fv ∈ kept → (c, n) ∈ fv.2 →
                    series_get c fv.2 = Some n ∧ 0 < n) as Hentry.
  { intros fv c n Hfv Hc.
    destruct (proj1 (Forall_forall _ _) Hkept fv Hfv) as [Hget _].
    apply get_file_food_counts_entries in Hget as [Hnd Hpos]. split.
    - by apply series_get_Some.
    - by apply (proj1 (Forall_forall _ _) Hpos (c, n)). }
  assert (∀ fv c, fv ∈ kept → 0 ≤ default 0 (series_get c fv.2)) as Hnonneg.
  { intros fv c Hfv. destruct (series_get c fv.2) as [n|] eqn:Hn; simpl; [|lia].
    destruct (proj1 (Forall_forall _ _) Hkept fv Hfv) as [Hget _].
    apply get_file_food_counts_entries in Hget as [Hnd Hpos].
    apply series_get_Some in Hn; [|done].
    apply (proj1 (Forall_forall _ _) Hpos (c, n)) in Hn. simpl in Hn. lia. }
  rewrite HM. simpl. fold cols. split_and!.
  - by destruct kept.
  - destruct kept as [|fv kept'] eqn:Heq; [done|]. rewrite <- Heq in *.
    assert (fv ∈ kept) as Hfv by (rewrite Heq; left).
    destruct (proj1 (Forall_forall _ _) Hkept fv Hfv) as [_ Hv].
    assert (∃ c n, (c, n) ∈ fv.2) as (c & n & Hin).
    { destruct (fv.2) as [|[c n] v']; [done|]. exists c, n. left. }
    assert (c ∈ cols) as Hc.
    { apply Hcols. exists fv. split; [done|]. apply list_elem_of_fmap. by exists (c, n). }
    intros Hnil. rewrite Hnil in Hc. by apply elem_of_nil in Hc.
  - apply Forall_fmap, Forall_forall. intros fv _. simpl. by rewrite length_fmap.
  - apply Forall_fmap, Forall_forall. intros fv Hfv. simpl.
    apply Forall_fmap, Forall_forall. intros c _. simpl. by apply Hnonneg.
  - apply Forall_fmap, Forall_forall. intros fv Hfv. simpl.
    destruct (proj1 (Forall_forall _ _) Hkept fv Hfv) as [_ Hv].
    assert (∃ c n, (c, n) ∈ fv.2) as (c & n & Hin).
    { destruct (fv.2) as [|[c n] v']; [done|]. exists c, n. left. }
    destruct (Hentry fv c n Hfv Hin) as [Hget Hpos].
    apply Exists_fmap, Exists_exists. exists c. split.
    + apply Hcols. exists fv. split; [done|]. apply list_elem_of_fmap. by exists (c, n).
    + simpl. by rewrite Hget.
  - intros j c Hj.
    assert (c ∈ cols) as Hc by (by apply list_elem_of_lookup_2 in Hj).
    apply Hcols in Hc as (fv & Hfv & Hc).
    apply list_elem_of_fmap in Hc as ([c' n] & -> & Hin).
    destruct (Hentry fv c' n Hfv Hin) as [Hget Hpos].
    destruct (proj1 (list_elem_of_lookup _ _) Hfv) as [i Hi].
    exists i, n. split; [|done].
    unfold df_cell. simpl. rewrite list_lookup_fmap, Hi. simpl.
    rewrite list_lookup_fmap, Hj. simpl. by rewrite Hget.
Qed.

Lemma matrix_has_no_zero_line_witness :
  let M := {| df_index := ["s1.mzXML"; "s2.mzXML"];
              df_columns := ["fruit"; "vegetable"];
              df_values := [[1; 0]; [0; 1]] |} in
  df_index M ≠ [] ∧ df_columns M ≠ [] ∧
  Forall (λ row, length row = length (df_columns M)) (df_values M) ∧
  Forall (Forall (λ n, 0 ≤ n)) (df_values M) ∧
  Forall (Exists (λ n, 0 < n)) (df_values M) ∧
  (∀ j c, df_columns M !! j = Some c → ∃ i n, df_cell M i j = Some n ∧ 0 < n).
Proof.
  apply (matrix_has_no_zero_line "network.tsv" "all" ["G1"] ["G4"] 1 study_world
           _ study_world).
  reflexivity.
Defined.

(** X14: the columns of a returned matrix are distinct labels in ascending
    order, and its rows are study files of the resolved metadata, in the
    order of the metadata: each belongs to an unambiguous cluster of a group
    of [all_groups]. *)
Theorem matrix_labels_ordered path st all_groups some_groups level w M w' :
  get_dataset_food_counts path st all_groups some_groups level w = (Ok M, w') →
  StronglySorted String.le (df_columns M) ∧
  NoDup (df_columns M) ∧
  ∃ net,
    tsv_files w !! path = Some net ∧
    sublist (df_index M) (get_sample_metadata net all_groups).*2 ∧
    (∀ f, f ∈ df_index M →
          ∃ g r, g ∈ all_groups ∧ r ∈ net ∧ DefaultGroups r = g ∧
                 ¬ str_contains g "," ∧ f ∈ str_split "|" (UniqueFileSources r)).
Proof.
  rewrite get_dataset_food_counts_run. intros [= HM _].
  destruct (tsv_files w !! path) as [net|]; [|done].
  apply dataset_frame_kept in HM
    as (kept & _ & _ & Hsub & _ & Hsorted & Hnd & HM).
  split_and!; [done..|]. exists net. split; [done|].
  assert (df_index M = kept.*1) as -> by (by rewrite HM).
  split; [done|]. intros f Hf.
  apply (λ H, elem_of_sublist _ _ _ H Hsub) in Hf.
  apply list_elem_of_fmap in Hf as ([g f'] & -> & Hin).
  apply elem_of_get_sample_metadata in Hin as (r & Hr & Hcomma & Hg & Hall & Hsplit).
  exists g, r. simpl. rewrite Hg in Hcomma. done.
Qed.

Lemma matrix_labels_ordered_witness :
  let M := {| df_index := ["s1.mzXML"; "s2.mzXML"];
              df_columns := ["fruit"; "vegetable"];
              df_values := [[1; 0]; [0; 1]] |} in
  StronglySorted String.le (df_columns M) ∧
  NoDup (df_columns M) ∧
  ∃ net,
    tsv_files study_world !! "network.tsv" = Some net ∧
    sublist (df_index M) (get_sample_metadata net ["G1"]).*2 ∧
    (∀ f, f ∈ df_index M →
          ∃ g r, g ∈ ["G1"] ∧ r ∈ net ∧ DefaultGroups r = g ∧
                 ¬ str_contains g "," ∧ f ∈ str_split "|" (UniqueFileSources r)).
Proof.
  apply (matrix_labels_ordered "network.tsv" "all" ["G1"] ["G4"] 1 study_world
           _ study_world).
  reflexivity.
Defined.

(** ** Arguments of the dataset functions *)

(** X15: the group lists and the level are checked only while a study file
    is processed.  When the metadata resolves no study file the dataset
    function raises a [ValueError], whatever [some_groups] and the level are.
    When it resolves one, a name that is no group column, or a level above
    6, raises, and what is raised is a [KeyError] or a [TypeError]: a
    [KeyError] for a name in [all_groups] that is no column of the table,
    for such a name in [some_groups] next to group columns in [all_groups],
    and for a level above 6 next to group columns in both lists; a
    [TypeError] for a text column of the table among the columns of
    [all_groups]. *)
Theorem dataset_checks_need_a_study_file path st all_groups some_groups level w net :
  tsv_files w !! path = Some net →
  (get_sample_metadata net all_groups = [] →
   (get_dataset_food_counts path st all_groups some_groups level w).1
   = Raise ValueError) ∧
  (get_sample_metadata net all_groups ≠ [] →
   (∃ g, g ∈ all_groups ++ some_groups ∧ g ∉ groups) ∨ 6 < level →
   ∃ e, (get_dataset_food_counts path st all_groups some_groups level w).1 = Raise e ∧
        (e = KeyError ∨ e = TypeError)) ∧
  (get_sample_metadata net all_groups ≠ [] →
   (∃ g, g ∈ all_groups ∧ g ∉ table_columns) ∨
   ((∀ g, g ∈ all_groups → g ∈ groups) ∧ ∃ g, g ∈ some_groups ∧ g ∉ table_columns) ∨
   ((∀ g, g ∈ all_groups ++ some_groups → g ∈ groups) ∧ 6 < level) →
   (get_dataset_food_counts path st all_groups some_groups level w).1
   = Raise KeyError) ∧
  (get_sample_metadata net all_groups ≠ [] →
   (∀ g, g ∈ all_groups → g ∈ table_columns) →
   (∃ g, g ∈ all_groups ∧ g ∈ text_columns) →
   (get_dataset_food_counts path st all_groups some_groups level w).1
   = Raise TypeError).
Proof.
  intros Hnet. rewrite get_dataset_food_counts_run, Hnet. simpl.
  unfold dataset_food_counts. split_and!.
  - intros ->. reflexivity.
  - intros Hne Hbad. destruct (get_sample_metadata net all_groups) as [|[g f] md]; [done|].
    simpl.
    destruct (get_file_food_counts net (filter_sample_types st (foodomics_metadata w))
                all_groups some_groups (PyList [f]) level) as [counts|e] eqn:Hget.
    + apply get_file_food_counts_Ok_args in Hget as (_ & Hgroups & Hlevel).
      destruct Hbad as [(g' & Hin & Hg')|Habove]; [by destruct Hg'; apply Hgroups | lia].
    + exists e. split; [done|]. by apply get_file_food_counts_Raise in Hget.
  - intros Hne Hbad. destruct (get_sample_metadata net all_groups) as [|[g f] md]; [done|].
    simpl. by rewrite get_file_food_counts_KeyError.
  - intros Hne Hcols Htext.
    destruct (get_sample_metadata net all_groups) as [|[g f] md] eqn:Hmd; [done|].
    simpl. rewrite get_file_food_counts_TypeError; [done| |done..].
    intros ->. by vm_compute in Hmd.
Qed.

Lemma dataset_checks_need_a_study_file_witness :
  tsv_files study_world !! "network.tsv" = Some study_network ∧
  (get_dataset_food_counts "network.tsv" "all" [] ["G9"] 12 study_world).1
  = Raise ValueError ∧
  (get_dataset_food_counts "network.tsv" "all" ["G1"] ["G9"] 1 study_world).1
  = Raise KeyError ∧
  (get_dataset_food_counts "network.tsv" "all" ["G1"; "DefaultGroups"] ["G4"] 1
     study_world).1
  = Raise TypeError.
Proof.
  assert (tsv_files study_world !! "network.tsv" = Some study_network) as Hnet
    by reflexivity.
  split; [exact Hnet|]. split_and!.
  - apply (proj1 (dataset_checks_need_a_study_file "network.tsv" "all" [] ["G9"] 12
                    study_world study_network Hnet)).
    reflexivity.
  - apply (proj1 (proj2 (proj2 (dataset_checks_need_a_study_file "network.tsv" "all"
                                  ["G1"] ["G9"] 1 study_world study_network Hnet)))).
    + discriminate.
    + right. left. split.
      * intros g Hg; decompose_list_elem_of; subst;
          apply (bool_decide_unpack _); vm_compute; exact I.
      * exists "G9". split; [left|]. apply (bool_decide_unpack _); vm_compute; exact I.
  - apply (proj2 (proj2 (proj2 (dataset_checks_need_a_study_file "network.tsv" "all"
                                  ["G1"; "DefaultGroups"] ["G4"] 1
                                  study_world study_network Hnet)))).
    + discriminate.
    + intros g Hg; decompose_list_elem_of; subst;
        apply (bool_decide_unpack _); vm_compute; exact I.
    + exists "DefaultGroups". split; [right; left | left].
Defined.

Lemma filter_sample_types_empty (st : string) (metadata : gmap string FoodRecord) :
  st ≠ "all" →
  (∀ f rec, metadata !! f = Some rec → simple_complex rec ≠ Some st) →
  filter_sample_types st metadata = ∅.
Proof.
  intros Hst Hnone. unfold filter_sample_types. rewrite decide_True by done.
  apply map_eq. intros f. rewrite lookup_empty.
  apply map_lookup_filter_None. right. intros rec Hrec Hkind. simpl in Hkind.
  by apply (Hnone f rec).
Qed.

Lemma get_file_food_counts_no_types net all_groups some_groups filename level counts :
  get_file_food_counts net ∅ all_groups some_groups filename level = Ok counts →
  counts = [].
Proof.
  intros Hget.
  apply get_file_food_counts_inv in Hget as (df & column & _ & _ & ->). simpl.
  assert (reindex_dropna (column <$> (∅ : gmap string FoodRecord))
            (explode_files (select_files filename df)) = []) as ->; [|done].
  destruct (reindex_dropna _ _) as [|x l] eqn:Hl; [done|].
  assert (x ∈ reindex_dropna (column <$> (∅ : gmap string FoodRecord))
                (explode_files (select_files filename df))) as Hx by (rewrite Hl; left).
  apply elem_of_reindex_dropna in Hx as (id & _ & Hlookup).
  by rewrite fmap_empty, lookup_empty in Hlookup.
Qed.

(** X16: a [sample_types] argument other than "all" that no row of the
    packaged table carries in its [simple_complex] cell (a misspelt "Simple",
    say) is not rejected, but no matrix is ever returned for it. *)
Theorem unknown_sample_type_never_returns path st all_groups some_groups level w :
  st ≠ "all" →
  (∀ f rec, foodomics_metadata w !! f = Some rec → simple_complex rec ≠ Some st) →
  ∀ M w', get_dataset_food_counts path st all_groups some_groups level w ≠ (Ok M, w').
Proof.
  intros Hst Hnone M w'. rewrite get_dataset_food_counts_run. intros [= HM _].
  destruct (tsv_files w !! path) as [net|]; [|done].
  rewrite filter_sample_types_empty in HM by done.
  apply dataset_frame_kept in HM as (kept & Hne & Hkept & _).
  destruct kept as [|fv kept']; [done|].
  apply Forall_cons in Hkept as [[Hget Hv] _].
  by apply get_file_food_counts_no_types in Hget.
Qed.

Lemma unknown_sample_type_never_returns_witness :
  "Simple" ≠ "all" ∧
  ∀ M w',
    get_dataset_food_counts "network.tsv" "Simple" ["G1"] ["G4"] 1 study_world
    ≠ (Ok M, w').
Proof.
  assert ("Simple" ≠ "all") as Hst by discriminate.
  split; [exact Hst|].
  apply (unknown_sample_type_never_returns "network.tsv" "Simple" ["G1"] ["G4"] 1
           study_world Hst).
  intros f rec Hrec. simpl in Hrec.
  destruct (decide (f = "ref1.mzXML")) as [->|Hf1].
  { rewrite lookup_insert_eq in Hrec. injection Hrec as <-. discriminate. }
  rewrite lookup_insert_ne in Hrec by done.
  destruct (decide (f = "ref2.mzXML")) as [->|Hf2].
  { rewrite lookup_insert_eq in Hrec. injection Hrec as <-. discriminate. }
  rewrite lookup_insert_ne in Hrec by done.
  rewrite lookup_empty in Hrec. discriminate.
Defined.

(** ** Rows of the long table *)

Lemma elem_of_level_blocks_inv (P : Z → DataFrame → Prop) levels frames
    (t : string * string * Z * Z) :
  Forall2 P levels frames →
  t ∈ mjoin (zip_with (λ lv M, (λ r, (r, lv)) <$> melt M) levels frames) →
  ∃ level M r, level ∈ levels ∧ P level M ∧ r ∈ melt M ∧ t = (r, level).
Proof.
  induction 1 as [|level M levels frames HP Hrest IH]; simpl.
  - by intros ?%elem_of_nil.
  - rewrite elem_of_app. intros [Ht|Ht].
    + apply list_elem_of_fmap in Ht as (r & -> & Hr).
      exists level, M, r. split_and!; [left | done..].
    + destruct (IH Ht) as (level' & M' & r & Hlevel & HP' & Hr & ->).
      exists level', M', r. split_and!; [by right | done..].
Qed.

Lemma NoDup_snd_unique {A B : Type} (l : list (A * B)) (x1 x2 : A) (y : B) :
  NoDup l.*2 → (x1, y) ∈ l → (x2, y) ∈ l → x1 = x2.
Proof.
  induction l as [|[a b] l IH]; [by intros _ ?%elem_of_nil|].
  rewrite fmap_cons. intros [Hb Hnd]%NoDup_cons.
  assert (∀ x, (x, b) ∈ l → False) as Hfresh.
  { intros x Hx. apply Hb. apply list_elem_of_fmap. by exists (x, b). }
  intros [[= -> ->]|H1]%elem_of_cons [[= ?]|H2]%elem_of_cons; subst.
  - done.
  - by destruct (Hfresh x2).
  - by destruct (Hfresh x1).
  - by apply IH.
Qed.

(** X17: the multi-level function leaves the world as it was, and returns a
    table only when every study file is resolved under one group.  Every row
    of the table then carries a level within 0 and [levels], a count that is
    not negative, a study file of the resolved metadata, and the group of
    that file, which is a group of [all_groups]: no row lacks its group. *)
Theorem long_table_rows path st all_groups some_groups levels w long w' :
  get_dataset_food_counts_all path st all_groups some_groups levels w = (Ok long, w') →
  w' = w ∧
  ∃ net,
    tsv_files w !! path = Some net ∧
    NoDup (get_sample_metadata net all_groups).*2 ∧
    ∀ r, r ∈ long →
      0 ≤ lr_level r ≤ levels ∧
      0 ≤ lr_count r ∧
      ∃ g, lr_group r = Some g ∧ g ∈ all_groups ∧
           (g, lr_filename r) ∈ get_sample_metadata net all_groups ∧
           ∀ g', (g', lr_filename r) ∈ get_sample_metadata net all_groups → g' = g.
Proof.
  intros Hrun. split.
  { rewrite get_dataset_food_counts_all_run in Hrun. by injection Hrun as _ <-. }
  apply get_dataset_food_counts_all_inv
    in Hrun as (net & frames & Hnet & Hnd & Hframes & -> & _).
  exists net. split_and!; [done..|].
  set (md := get_sample_metadata net all_groups) in *.
  intros r Hr. apply list_elem_of_fmap in Hr as (t & -> & Ht).
  apply (elem_of_level_blocks_inv _ _ _ _ Hframes)
    in Ht as (level & M & t3 & Hlevel & HM & Ht3 & ->).
  apply elem_of_seqZ in Hlevel.
  apply dataset_frame_kept in HM as (kept & _ & Hkept & Hsub & _ & _ & _ & HM).
  rewrite HM, melt_by_name in Ht3.
  apply list_elem_of_join in Ht3 as (blk & Ht3 & Hblk).
  apply list_elem_of_fmap in Hblk as (c & -> & Hc).
  apply list_elem_of_fmap in Ht3 as (fv & -> & Hfv).
  destruct (proj1 (Forall_forall _ _) Hkept fv Hfv) as [Hget _].
  simpl. split_and!; [lia | lia | |].
  - destruct (series_get c fv.2) as [n|] eqn:Hn; simpl; [|lia].
    apply get_file_food_counts_entries in Hget as [Hnodup Hpos].
    apply series_get_Some in Hn; [|done].
    apply (proj1 (Forall_forall _ _) Hpos (c, n)) in Hn. simpl in Hn. lia.
  - assert (fv.1 ∈ md.*2) as Hf.
    { apply (λ H, elem_of_sublist _ _ _ H Hsub), list_elem_of_fmap. eauto. }
    apply list_elem_of_fmap in Hf as ([g f] & Hgf & Hin). simpl in Hgf.
    destruct (filter (λ m : string * string, m.2 = fv.1) md) as [|[g0 f0] rest] eqn:Hfilter.
    { assert ((g, f) ∈ filter (λ m : string * string, m.2 = fv.1) md) as Hin'
        by (by apply list_elem_of_filter).
      rewrite Hfilter in Hin'. by apply elem_of_nil in Hin'. }
    assert ((g0, f0) ∈ filter (λ m : string * string, m.2 = fv.1) md) as Hin0
      by (rewrite Hfilter; left).
    apply list_elem_of_filter in Hin0 as [Hf0 Hin0]. simpl in Hf0. subst f0.
    exists g0. simpl. split_and!; [done | | done |].
    + by apply elem_of_get_sample_metadata in Hin0 as (? & _ & _ & _ & ? & _).
    + intros g' Hg'. by apply (NoDup_snd_unique md g' g0 fv.1).
Qed.

Lemma long_table_rows_witness :
  ∃ net,
    tsv_files study_world !! "network.tsv" = Some net ∧
    NoDup (get_sample_metadata net ["G1"]).*2 ∧
    ∀ r, r ∈ study_long →
      0 ≤ lr_level r ≤ 1 ∧
      0 ≤ lr_count r ∧
      ∃ g, lr_group r = Some g ∧ g ∈ ["G1"] ∧
           (g, lr_filename r) ∈ get_sample_metadata net ["G1"] ∧
           ∀ g', (g', lr_filename r) ∈ get_sample_metadata net ["G1"] → g' = g.
Proof.
  apply (proj2 (long_table_rows "network.tsv" "all" ["G1"] ["G4"] 1 study_world
                  study_long study_world eq_refl)).
Defined.

Lemma dataset_food_counts_above_6 net types all_groups some_groups level M :
  6 < level → dataset_food_counts net types all_groups some_groups level ≠ Ok M.
Proof.
  intros Hlevel HM.
  apply dataset_frame_kept in HM as (kept & Hne & Hkept & _).
  destruct kept as [|fv kept']; [done|].
  apply Forall_cons in Hkept as [[Hget _] _].
  apply get_file_food_counts_Ok_args in Hget as (_ & _ & Hle). lia.
Qed.

(** X18: the multi-level function returns a table only for [levels] between
    0 and 6: with a negative [levels] there is no level to process and the
    concatenation of no frame raises a [ValueError], and beyond 6 the level 7
    has no column in the ontology table. *)
Theorem long_table_levels_bounds path st all_groups some_groups levels w :
  (∀ long w',
     get_dataset_food_counts_all path st all_groups some_groups levels w = (Ok long, w') →
     0 ≤ levels ≤ 6) ∧
  (∀ net, tsv_files w !! path = Some net → levels < 0 →
          (get_dataset_food_counts_all path st all_groups some_groups levels w).1
          = Raise ValueError).
Proof.
  assert (∀ net, tsv_files w !! path = Some net → levels < 0 →
            (get_dataset_food_counts_all path st all_groups some_groups levels w).1
            = Raise ValueError) as Hneg.
  { intros net Hnet Hlevels. rewrite get_dataset_food_counts_all_run, Hnet. simpl.
    unfold py_range. by rewrite seqZ_nil by lia. }
  split; [|exact Hneg].
  intros long w' Hrun.
  destruct (decide (levels < 0)) as [Hlevels|Hlevels].
  { pose proof Hrun as Hrun'.
    apply get_dataset_food_counts_all_inv in Hrun' as (net & _ & Hnet & _).
    specialize (Hneg net Hnet Hlevels). rewrite Hrun in Hneg. done. }
  split; [lia|]. destruct (decide (levels ≤ 6)) as [|Habove]; [done|].
  apply get_dataset_food_counts_all_inv in Hrun as (net & frames & _ & _ & Hframes & _).
  assert (py_range (levels + 1) !! 7%nat = Some 7) as H7.
  { apply lookup_seqZ. lia. }
  destruct (Forall2_lookup_l _ _ _ _ _ Hframes H7) as (M & _ & HM).
  by apply dataset_food_counts_above_6 in HM.
Qed.

Lemma long_table_levels_bounds_witness :
  tsv_files study_world !! "network.tsv" = Some study_network ∧ -1 < 0 ∧
  (get_dataset_food_counts_all "network.tsv" "all" ["G1"] ["G4"] (-1) study_world).1
  = Raise ValueError ∧
  0 ≤ 1 ≤ 6.
Proof.
  assert (tsv_files study_world !! "network.tsv" = Some study_network) as Hnet
    by reflexivity.
  assert (-1 < 0) as Hneg by lia.
  split; [exact Hnet|]. split; [exact Hneg|]. split.
  - exact (proj2 (long_table_levels_bounds "network.tsv" "all" ["G1"] ["G4"] (-1)
                    study_world) study_network Hnet Hneg).
  - exact (proj1 (long_table_levels_bounds "network.tsv" "all" ["G1"] ["G4"] 1
                    study_world) study_long study_world eq_refl).
Defined.

(** ** Exceptions of the dataset functions *)

Lemma file_loop_Raise net types all_groups some_groups level files e :
  file_loop net types all_groups some_groups level files = Raise e →
  e = KeyError ∨ e = TypeError.
Proof.
  induction files as [|f files IH]; simpl; [done|].
  destruct (get_file_food_counts _ _ _ _ (PyList [f]) _) as [v|e1] eqn:Hv; simpl.
  - destruct (file_loop _ _ _ _ _ files) as [kept|e2]; simpl; [done|].
    intros [= <-]. by apply IH.
  - intros [= <-]. by apply get_file_food_counts_Raise in Hv.
Qed.

Lemma dataset_food_counts_Raise net types all_groups some_groups level e :
  dataset_food_counts net types all_groups some_groups level = Raise e →
  e = KeyError ∨ e = TypeError ∨ e = ValueError.
Proof.
  unfold dataset_food_counts.
  destruct (file_loop _ _ _ _ _ _) as [kept|e1] eqn:Hloop; simpl.
  - destruct (kept.*2) as [|s ss]; simpl; [|done]. intros [= <-]. by right; right.
  - intros [= <-]. apply file_loop_Raise in Hloop. tauto.
Qed.

Lemma level_frames_Raise net types all_groups some_groups levels e :
  rmap (level_frame net types all_groups some_groups) levels = Raise e →
  e = KeyError ∨ e = TypeError ∨ e = ValueError.
Proof.
  induction levels as [|level levels IH]; simpl; [done|].
  destruct (level_frame _ _ _ _ level) as [blk|e1] eqn:Hblk; simpl.
  - destruct (rmap _ levels) as [rest|e2]; simpl; [done|]. intros [= <-]. by apply IH.
  - intros [= <-]. unfold level_frame in Hblk.
    destruct (dataset_food_counts _ _ _ _ level) as [M|e2] eqn:HM; simpl in Hblk.
    + unfold reset_index_melt in Hblk. repeat case_decide; try done;
        simpl in Hblk; injection Hblk as <-; by right; right.
    + injection Hblk as <-. by apply dataset_food_counts_Raise in HM.
Qed.

(** X19: both dataset functions raise a [FileNotFoundError] exactly when no
    table is stored under the given path; the single-level function raises
    nothing but that, a [KeyError], a [TypeError] or a [ValueError]. *)
Theorem missing_table_raises path st all_groups some_groups level levels w :
  ((get_dataset_food_counts path st all_groups some_groups level w).1
   = Raise FileNotFoundError ↔ tsv_files w !! path = None) ∧
  ((get_dataset_food_counts_all path st all_groups some_groups levels w).1
   = Raise FileNotFoundError ↔ tsv_files w !! path = None) ∧
  (∀ e, (get_dataset_food_counts path st all_groups some_groups level w).1 = Raise e →
        e = FileNotFoundError ∨ e = KeyError ∨ e = TypeError ∨ e = ValueError).
Proof.
  rewrite get_dataset_food_counts_run, get_dataset_food_counts_all_run. simpl.
  destruct (tsv_files w !! path) as [net|]; split_and!; try done.
  - split; [|done]. intros Hraise.
    apply dataset_food_counts_Raise in Hraise as [?|[?|?]]; done.
  - split; [|done].
    destruct (rmap _ _) as [all_data|e1] eqn:Hdata; simpl.
    + destruct all_data as [|blk rest]; simpl; [done|].
      unfold map_group. by case_decide.
    + intros [= ->]. apply level_frames_Raise in Hdata as [?|[?|?]]; done.
  - intros e He. right. by apply dataset_food_counts_Raise in He.
  - intros e [= <-]. by left.
Qed.
